(** * onlythemes: the serverless back end, embedded and verified

    Two HTTP-triggered functions over a document store:
    - [ThemeExtensionFetch] (lazy installation of the stored procedure
      [getRandomTheme], one execution of it, two look-ups, one response);
    - [ExtensionUpsert] (one upsert, one response).

    The stored procedure's body is the only piece of algorithmic code: a
    paginated scan that accumulates the ids of the themes whose image was
    captured and returns one of them at a random index.

    The store itself (Cosmos DB) is an external collaborator.  It is modelled
    by the containers' contents plus an explicit description of what the
    server is free to decide: whether a page request is accepted, whether a
    read fails, how many items it places in a page, which remote call faults. *)

From Stdlib Require Import List String Bool Arith ZArith QArith Qround Lia.
Import ListNotations.

Local Open Scope string_scope.
Local Open Scope list_scope.
Local Open Scope nat_scope.

(** ** Documents *)

(** A theme document.  Only the fields the code reads are kept: [id],
    [extensionId] (the cross reference used by the fetch handler) and
    [imageCaptured] (the field the procedure's query filters on). *)
Record Theme := mkTheme {
  theme_id : string;
  theme_extensionId : string;
  imageCaptured : bool
}.

(** An extension document: its own [id], the join key [extensionId] and the
    [displayName] that the upsert handler logs. *)
Record Extension := mkExtension {
  ext_id : string;
  extensionId : string;
  displayName : string
}.

(** ** The stored procedure [getRandomTheme] *)

Module Sproc.

(** A continuation token as the script sees it: the JavaScript values
    [undefined] and [null], or a cursor string issued by the server.  The
    cursor is the position reached in the query's result stream. *)
Inductive Continuation :=
| Undefined
| Null
| Token (cursor : nat).

(** JavaScript truthiness of a continuation: a server-issued cursor is a
    non-empty string, [undefined] and [null] are falsy. *)
Definition truthy (c : Continuation) : bool :=
  match c with
  | Token _ => true
  | Undefined | Null => false
  end.

(** Where the server resumes for a given token: the start of the stream when
    there is none. *)
Definition cursor_of (c : Continuation) : nat :=
  match c with
  | Token o => o
  | Undefined | Null => 0
  end.

(** An element of a feed: the projection [{ id }] produced by
    [select c.id from c ...], or a whole document as [readDocuments] returns
    them. *)
Inductive Item :=
| Projected (id : string)
| Whole (doc : Theme).

Definition item_id (i : Item) : string :=
  match i with
  | Projected id => id
  | Whole d => theme_id d
  end.

Record ResponseOptions := mkOptions {
  continuation : Continuation;
  pageSize : nat
}.

(** What a call of [collection.queryDocuments] / [readDocuments] amounts to:
    the request is refused (the call returns [false] and the callback never
    runs), or it is accepted (the call returns [true]) and the callback later
    receives [(err, docFeed, responseOptions)]. *)
Inductive Queued :=
| Refused
| Delivered (err : option string) (docFeed : list Item) (next : Continuation).

(** The server's freedom, per cursor position: accept the request or not
    (time budget), fail the read or not, and how many items it is prepared to
    place in the page (never more than the requested page size). *)
Record Host := mkHost {
  accepts : nat -> bool;
  readError : nat -> option string;
  pageFill : nat -> nat
}.

(** A host that always accepts, never fails and fills every page. *)
Definition idealHost : Host :=
  {| accepts := fun _ => true;
     readError := fun _ => None;
     pageFill := fun _ => 1000 |}.

(** The one query text the procedure submits. *)
Definition filterQuery : string :=
  "select c.id from c where c.imageCaptured = true".

(** The result stream of [filterQuery] over a container: the [id] projection
    of the documents whose [imageCaptured] is [true], in container order. *)
Definition matching (docs : list Theme) : list Item :=
  map (fun d => Projected (theme_id d)) (filter imageCaptured docs).

(** Paging of a result stream by the server. *)
Definition serve (h : Host) (stream : list Item) (opts : ResponseOptions) : Queued :=
  let o := cursor_of (continuation opts) in
  if negb (accepts h o) then Refused
  else match readError h o with
       | Some e => Delivered (Some e) [] Undefined
       | None =>
           let page := firstn (Nat.min (pageSize opts) (pageFill h o)) (skipn o stream) in
           let next := o + List.length page in
           Delivered None page
             (if next <? List.length stream then Token next else Undefined)
       end.

(** [collection.queryDocuments(link, query, options, callback)].  Only the
    procedure's own query text is interpreted; any other text is reported to
    the callback as an error. *)
Definition queryDocuments (h : Host) (docs : list Theme) (q : string)
    (opts : ResponseOptions) : Queued :=
  if String.eqb q filterQuery then serve h (matching docs) opts
  else if accepts h (cursor_of (continuation opts))
       then Delivered (Some "unsupported query") [] Undefined
       else Refused.

(** [collection.readDocuments(link, options, callback)]: every document,
    whole. *)
Definition readDocuments (h : Host) (docs : list Theme)
    (opts : ResponseOptions) : Queued :=
  serve h (map Whole docs) opts.

(** The response body the script builds: [{ randomTheme, continuationToken }].
    [randomTheme] is [None] when the array look-up yields [undefined]. *)
Record Body := mkBody {
  randomTheme : option Item;
  continuationToken : Continuation
}.

(** The script's mutable variables: the accumulator [result] and the body
    handed to [getContext().getResponse().setBody]. *)
Record State := mkState {
  result : list Item;
  responseBody : option Body
}.

(** How an invocation ends: normally, by a thrown string, or (model only)
    with the recursion budget exhausted. *)
Inductive Outcome :=
| Returned (st : State)
| Threw (msg : string)
| OutOfFuel.

(** [var maxResult = 1000]. *)
Definition maxResult : nat := 1000.

(** [result[i]]: [undefined] outside [0 .. length-1]. *)
Definition index {A} (l : list A) (i : Z) : option A :=
  if (i <? 0)%Z then None else nth_error l (Z.to_nat i).

Section Invocation.

(** The server, the container and the value that [Math.random()] yields in
    this invocation: a double in [0,1), taken as the rational it denotes,
    with the product below taken exactly. *)
Variable host : Host.
Variable docs : list Theme.
Variable rnd : Q.

(** [Math.floor(Math.random() * (max - min + 1)) + min]. *)
Definition getRandomInt (min max : Z) : Z :=
  (Qfloor (rnd * inject_Z (max - min + 1)) + min)%Z.

(** [setBody(continuationToken)]. *)
Definition setBody (st : State) (continuationToken : Continuation) : State :=
  let randomIndex := getRandomInt 0 (Z.of_nat (List.length (result st)) - 1) in
  let body := {| randomTheme := index (result st) randomIndex;
                 continuationToken := continuationToken |} in
  {| result := result st; responseBody := Some body |}.

(** [query(responseOptions)]: [filterQuery] is a non-empty string, so the
    conditional takes the [queryDocuments] branch. *)
Definition query (responseOptions : ResponseOptions) : Queued :=
  if (negb (String.eqb filterQuery "") && (0 <? String.length filterQuery))%bool
  then queryDocuments host docs filterQuery responseOptions
  else readDocuments host docs responseOptions.

(** [onReadDocuments(err, docFeed, responseOptions)], with the call back
    into [tryQuery] taken as a parameter. *)
Definition onReadDocuments (tryQuery : State -> Continuation -> Outcome)
    (st : State) (err : option string) (docFeed : list Item)
    (responseOptions_continuation : Continuation) : Outcome :=
  match err with
  | Some e => Threw ("Error while reading document: " ++ e)
  | None =>
      let st' := {| result := result st ++ docFeed;
                    responseBody := responseBody st |} in
      if truthy responseOptions_continuation
      then tryQuery st' responseOptions_continuation
      else Returned (setBody st' Null)
  end.

(** [tryQuery(nextContinuationToken)].  [fuel] bounds the number of page
    requests of one invocation. *)
Fixpoint tryQuery (fuel : nat) (st : State)
    (nextContinuationToken : Continuation) : Outcome :=
  match fuel with
  | O => OutOfFuel
  | S fuel' =>
      let responseOptions :=
        {| continuation := nextContinuationToken; pageSize := maxResult |} in
      if maxResult <=? List.length (result st)
      then Returned (setBody st nextContinuationToken)
      else match query responseOptions with
           | Refused => Returned (setBody st nextContinuationToken)
           | Delivered err docFeed next =>
               onReadDocuments (tryQuery fuel') st err docFeed next
           end
  end.

(** The procedure body: [var result = []; tryQuery(continuationToken);]. *)
Definition getRandomTheme (fuel : nat) (continuationToken : Continuation) : Outcome :=
  tryQuery fuel {| result := []; responseBody := None |} continuationToken.

End Invocation.

(** Conditions on the server under which a scan runs undisturbed: every page
    request is accepted and no read fails. *)
Definition cooperative (h : Host) : Prop :=
  (forall o, accepts h o = true) /\ (forall o, readError h o = None).

(** The server never answers with an empty page while items remain. *)
Definition progresses (h : Host) : Prop :=
  forall o, 1 <= pageFill h o.


(** The element [it] is the [id] projection of a document of the container
    whose [imageCaptured] is [true]. *)
Definition captured_in (docs : list Theme) (it : Item) : Prop :=
  exists d, In d docs /\ imageCaptured d = true /\ it = Projected (theme_id d).

(** The caller-side resumption loop that the procedure's comments describe
    ("the client will run this script again starting from this
    continuation"); no handler of the repository contains it.  It reinvokes
    the procedure with each returned token, at most [rounds] times, and gives
    the final states of the successive invocations once a falsy token comes
    back.  Invocations are numbered from [n] on; invocation [i] runs against
    the server as it behaves then, [hosts i] (a request refused in one
    invocation may be accepted in the next), with the random draw [rnds i]. *)
Fixpoint reinvoke (hosts : nat -> Host) (docs : list Theme) (rnds : nat -> Q)
    (fuel rounds n : nat) (tok : Continuation) : option (list State) :=
  match rounds with
  | O => None
  | S r =>
      match getRandomTheme (hosts n) docs (rnds n) fuel tok with
      | Returned st =>
          match responseBody st with
          | Some b =>
              if truthy (continuationToken b)
              then option_map (cons st)
                     (reinvoke hosts docs rnds fuel r (S n) (continuationToken b))
              else Some [st]
          | None => None
          end
      | Threw _ | OutOfFuel => None
      end
  end.

(** The token handed back by the last invocation of a resumed scan. *)
Definition final_token (sts : list State) : option Continuation :=
  option_map continuationToken
    (responseBody (last sts {| result := []; responseBody := None |})).

End Sproc.

(** ** The store as the SDK exposes it *)

(** What the server runs for a stored procedure.  [SamplingScript name] is
    the text that [getStoredProcedure] builds for [sprocId = name]; a script
    installed by somebody else is known only by what it does. *)
Inductive Script :=
| SamplingScript (name : string)
| OtherScript (run : list Theme -> Sproc.Continuation -> Sproc.Outcome).

Record StoredProcedureDefinition := mkDefinition {
  sproc_id : string;
  sproc_body : Script
}.

(** [container.scripts.storedProcedure(id)]: a reference by id. *)
Record StoredProcedure := mkHandle {
  handle_id : string
}.

(** Database [onlyThemesDb]: container [themes] with its scripts, and
    container [extensions].  A container that does not exist yet is an empty
    one, which is what [createIfNotExists] makes of it. *)
Record Db := mkDb {
  themes : list Theme;
  scripts : list StoredProcedureDefinition;
  extensions : list Extension
}.

(** The remote calls, with the argument that identifies them. *)
Inductive Event :=
| DatabasesCreateIfNotExists (id : string)
| ContainersCreateIfNotExists (id : string)
| StoredProceduresReadAll
| StoredProceduresCreate (id : string)
| StoredProcedureExecute (id : string) (param : Sproc.Continuation)
| ItemsQuery (container : string) (value : string)
| ItemsUpsert (id : string).

Inductive Error :=
| TypeError (msg : string)
| StoreError (msg : string)
| Thrown (msg : string).

(** [context.res]. *)
Inductive ResBody :=
| NoBody
| IdBody (id : string)
| ErrBody (err : Error)
| PairBody (theme : option Theme) (extension : option Extension).

Record Response := mkResponse {
  status : nat;
  body : ResBody
}.

(** The function's [context]: the response slot and what was logged. *)
Record Context := mkContext {
  res : option Response;
  logged : list string
}.

(** Everything a handler can change: the database, its context, and the
    remote calls issued so far (oldest first). *)
Record Sys := mkSys {
  db : Db;
  ctx : Context;
  trace : list Event
}.

(** What the handler does not control: the server running the procedure, the
    random draw, the page-request budget, which remote call is rejected, and
    the status code the server reports for a creation. *)
Record Env := mkEnv {
  host : Sproc.Host;
  rnd : Q;
  fuel : nat;
  fault : Event -> option string;
  createStatus : nat
}.

(** An [async] computation: it settles with a value or rejects with an
    error, and leaves a new state either way. *)
Inductive Settled (A : Type) :=
| Ok (a : A)
| Rejected (e : Error).
Arguments Ok {A} a.
Arguments Rejected {A} e.

Definition Async (A : Type) : Type := Sys -> Settled A * Sys.

Definition ret {A} (a : A) : Async A := fun s => (Ok a, s).

Definition throw {A} (e : Error) : Async A := fun s => (Rejected e, s).

Definition bind {A B} (m : Async A) (k : A -> Async B) : Async B :=
  fun s => match m s with
           | (Ok a, s') => k a s'
           | (Rejected e, s') => (Rejected e, s')
           end.

Notation "x <- m ;; k" := (bind m (fun x => k))
  (at level 61, m at next level, right associativity).
Notation "m ;;; k" := (bind m (fun _ => k))
  (at level 61, right associativity).

(** [try { m } catch (err) { h err }]. *)
Definition try_catch {A} (m : Async A) (h : Error -> Async A) : Async A :=
  fun s => match m s with
           | (Ok a, s') => (Ok a, s')
           | (Rejected e, s') => h e s'
           end.

(** [await] of a remote call: the call is recorded; the server rejects it or
    performs it on the database. *)
Definition remote {A} (env : Env) (ev : Event) (perform : Db -> A * Db) : Async A :=
  fun s =>
    let s1 := {| db := db s; ctx := ctx s; trace := trace s ++ [ev] |} in
    match fault env ev with
    | Some e => (Rejected (StoreError e), s1)
    | None => let (a, d) := perform (db s) in
              (Ok a, {| db := d; ctx := ctx s1; trace := trace s1 |})
    end.

(** [context.res = r]. *)
Definition set_res (r : Response) : Async unit :=
  fun s => (Ok tt, {| db := db s;
                      ctx := {| res := Some r; logged := logged (ctx s) |};
                      trace := trace s |}).

(** [context.log(msg)]. *)
Definition log (msg : string) : Async unit :=
  fun s => (Ok tt, {| db := db s;
                      ctx := {| res := res (ctx s); logged := logged (ctx s) ++ [msg] |};
                      trace := trace s |}).

(** [createIfNotExists] on the database or on a container. *)
Definition createIfNotExists (env : Env) (ev : Event) : Async unit :=
  remote env ev (fun d => (tt, d)).

(** Property access [x.f] on a value that may be [undefined]. *)
Definition member {A B} (x : option A) (f : A -> B) (name : string) : Async B :=
  match x with
  | Some a => ret (f a)
  | None => throw (TypeError ("Cannot read properties of undefined (reading '" ++ name ++ "')"))
  end.

(** ** ThemeExtensionFetch *)

Module ThemeExtensionFetch.

(** [container.scripts.storedProcedures.readAll().fetchAll()).resources]. *)
Definition readAll (env : Env) : Async (list StoredProcedureDefinition) :=
  remote env StoredProceduresReadAll (fun d => (scripts d, d)).

(** [container.scripts.storedProcedures.create(def)]: the definition is
    stored; the response carries the status code and a handle. *)
Definition create (env : Env) (def : StoredProcedureDefinition)
    : Async (nat * StoredProcedure) :=
  remote env (StoredProceduresCreate (sproc_id def))
    (fun d => ((createStatus env, mkHandle (sproc_id def)),
               {| themes := themes d;
                  scripts := scripts d ++ [def];
                  extensions := extensions d |})).

(** [storedProcedures.find(sproc => sproc.id === sprocId)], as a truth value. *)
Definition found (sprocId : string) (storedProcedures : list StoredProcedureDefinition) : bool :=
  match find (fun sproc => String.eqb (sproc_id sproc) sprocId) storedProcedures with
  | Some _ => true
  | None => false
  end.

(** [getStoredProcedure(sprocId, container)]; [None] is the [null] result.
    The array [resources] is always defined, so the first conjunct of the
    guard holds. *)
Definition getStoredProcedure (env : Env) (sprocId : string)
    : Async (option StoredProcedure) :=
  storedProcedures <- readAll env ;;
  if found sprocId storedProcedures
  then ret (Some (mkHandle sprocId))
  else
    let sprocDefinition :=
      {| sproc_id := sprocId; sproc_body := SamplingScript sprocId |} in
    sprocResponse <- create env sprocDefinition ;;
    if fst sprocResponse =? 200
    then ret (Some (snd sprocResponse))
    else ret None.

(** What the server does when a script runs against the [themes] container. *)
Definition runScript (env : Env) (b : Script) (docs : list Theme)
    (param : Sproc.Continuation) : Sproc.Outcome :=
  match b with
  | SamplingScript _ => Sproc.getRandomTheme (host env) docs (rnd env) (fuel env) param
  | OtherScript run => run docs param
  end.

(** [sproc.execute(...)]: [response.resource] is the body the script set, if
    any.  A script that throws, or that the server stops, rejects the call. *)
Definition execute (env : Env) (sproc : StoredProcedure)
    (param : Sproc.Continuation) : Async (option Sproc.Body) :=
  fun s =>
    let s1 := {| db := db s; ctx := ctx s;
                 trace := trace s ++ [StoredProcedureExecute (handle_id sproc) param] |} in
    match fault env (StoredProcedureExecute (handle_id sproc) param) with
    | Some e => (Rejected (StoreError e), s1)
    | None =>
        match find (fun d => String.eqb (sproc_id d) (handle_id sproc)) (scripts (db s)) with
        | None => (Rejected (StoreError "NotFound"), s1)
        | Some def =>
            match runScript env (sproc_body def) (themes (db s)) param with
            | Sproc.Returned st => (Ok (Sproc.responseBody st), s1)
            | Sproc.Threw msg => (Rejected (StoreError msg), s1)
            | Sproc.OutOfFuel => (Rejected (StoreError "RequestTimeout"), s1)
            end
        end
    end.

(** [SELECT * from c WHERE c.id = @themeId] on [themes]. *)
Definition queryThemes (env : Env) (themeId : string) : Async (list Theme) :=
  remote env (ItemsQuery "themes" themeId)
    (fun d => (filter (fun c => String.eqb (theme_id c) themeId) (themes d), d)).

(** [SELECT * from c WHERE c.extensionId = @extensionId] on [extensions]. *)
Definition queryExtensions (env : Env) (extId : string) : Async (list Extension) :=
  remote env (ItemsQuery "extensions" extId)
    (fun d => (filter (fun c => String.eqb (extensionId c) extId) (extensions d), d)).

(** Lines 114-136: from the sampled element to the response. *)
Definition respond (env : Env) (randomTheme : option Sproc.Item) : Async unit :=
  themeId <- member randomTheme Sproc.item_id "id" ;;
  resources <- queryThemes env themeId ;;
  let theme := hd_error resources in
  extId <- member theme theme_extensionId "extensionId" ;;
  extensionResources <- queryExtensions env extId ;;
  let extension := hd_error extensionResources in
  set_res {| status := match theme with Some _ => 200 | None => 404 end;
             body := PairBody theme extension |}.

(** Lines 99-112: the containers, the procedure handle, the one execution
    and the destructuring of its [resource]. *)
Definition sampleTheme (env : Env) : Async (option Sproc.Item) :=
  createIfNotExists env (DatabasesCreateIfNotExists "onlyThemesDb") ;;;
  createIfNotExists env (ContainersCreateIfNotExists "themes") ;;;
  createIfNotExists env (ContainersCreateIfNotExists "extensions") ;;;
  sproc <- getStoredProcedure env "getRandomTheme" ;;
  match sproc with
  | None => throw (Thrown "An error occurred while fetching the storedProcedure")
  | Some sproc =>
      response <- execute env sproc Sproc.Undefined ;;
      member response Sproc.randomTheme "randomTheme"
  end.

(** The handler.  [userId] is read from the request and never used. *)
Definition httpTrigger (env : Env) (userId : option string) : Async unit :=
  randomTheme <- sampleTheme env ;;
  respond env randomTheme.

(** The executions of stored procedures found in a trace, with the
    parameter each was given. *)
Fixpoint executions (tr : list Event) : list (string * Sproc.Continuation) :=
  match tr with
  | [] => []
  | StoredProcedureExecute id param :: tr' => (id, param) :: executions tr'
  | _ :: tr' => executions tr'
  end.

(** The creations of stored procedures found in a trace. *)
Fixpoint creations (tr : list Event) : list string :=
  match tr with
  | [] => []
  | StoredProceduresCreate id :: tr' => id :: creations tr'
  | _ :: tr' => creations tr'
  end.

End ThemeExtensionFetch.

(** ** ExtensionUpsert *)

Module ExtensionUpsert.

(** Insert-or-replace keyed by [id]. *)
Fixpoint replace_or_add (e : Extension) (l : list Extension) : list Extension :=
  match l with
  | [] => [e]
  | x :: l' => if String.eqb (ext_id x) (ext_id e) then e :: l'
               else x :: replace_or_add e l'
  end.

(** [container.items.upsert(extension)]; the response's [resource] is the
    stored document. *)
Definition upsert (env : Env) (e : Extension) : Async Extension :=
  remote env (ItemsUpsert (ext_id e))
    (fun d => (e, {| themes := themes d;
                     scripts := scripts d;
                     extensions := replace_or_add e (extensions d) |})).

(** The body of the [try] block (lines 19-26). *)
Definition tryBlock (env : Env) (extension : Extension) : Async unit :=
  createIfNotExists env (DatabasesCreateIfNotExists "onlyThemesDb") ;;;
  createIfNotExists env (ContainersCreateIfNotExists "extensions") ;;;
  resource <- upsert env extension ;;
  set_res {| status := 200; body := IdBody (ext_id resource) |}.

(** The [catch] block (lines 28-33). *)
Definition catchBlock (err : Error) : Async unit :=
  set_res {| status := 500; body := ErrBody err |}.

(** Lines 16-34: the guarded [try]/[catch]. *)
Definition guarded (env : Env) (extension : option Extension) : Async unit :=
  match extension with
  | Some e => try_catch (tryBlock env e) catchBlock
  | None => ret tt
  end.

(** The handler; [extension] is [context.bindings.extension], [None] when the
    binding is absent. *)
Definition httpTrigger (env : Env) (extension : option Extension) : Async unit :=
  name <- member extension displayName "displayName" ;;
  log ("DataParser: " ++ name) ;;;
  guarded env extension ;;;
  set_res {| status := 404; body := NoBody |}.

End ExtensionUpsert.

(** ** Sample data *)

Module Sample.

Import Sproc.

(** A server environment in which nothing goes wrong; the store reports
    [status] for a creation. *)
Definition calm (status : nat) : Env :=
  {| host := idealHost; rnd := 1 # 2; fuel := 5;
     fault := fun _ => None; createStatus := status |}.

Definition fresh (d : Db) : Sys :=
  {| db := d; ctx := {| res := None; logged := [] |}; trace := [] |}.

(** Three themes, two of them captured. *)
Definition threeThemes : list Theme :=
  [mkTheme "a" "e1" true; mkTheme "b" "e1" false; mkTheme "c" "e2" true].

(** More captured themes than the cap. *)
Definition manyThemes : list Theme := repeat (mkTheme "t" "e1" true) 2500.

Definition samplingDefinition : StoredProcedureDefinition :=
  {| sproc_id := "getRandomTheme"; sproc_body := SamplingScript "getRandomTheme" |}.

(** A procedure of the same name installed earlier with another body: it
    answers with an id that the container does not hold. *)
Definition staleDefinition : StoredProcedureDefinition :=
  {| sproc_id := "getRandomTheme";
     sproc_body := OtherScript (fun _ _ =>
       Returned {| result := [];
                   responseBody := Some {| randomTheme := Some (Projected "ghost");
                                           continuationToken := Null |} |}) |}.

(** A theme whose [extensionId] no extension carries. *)
Definition orphanDb : Db :=
  {| themes := [mkTheme "a" "e9" true];
     scripts := [samplingDefinition];
     extensions := [mkExtension "x1" "e1" "Ext One"] |}.

Definition staleDb : Db :=
  {| themes := [mkTheme "a" "e1" true];
     scripts := [staleDefinition];
     extensions := [mkExtension "x1" "e1" "Ext One"] |}.

Definition crowdedDb : Db :=
  {| themes := manyThemes;
     scripts := [samplingDefinition];
     extensions := [mkExtension "x1" "e1" "Ext One"] |}.

(** A server whose first read fails. *)
Definition failingHost : Host :=
  {| accepts := fun _ => true;
     readError := fun o => if o =? 0 then Some "ServiceUnavailable" else None;
     pageFill := fun _ => 1000 |}.

(** A server that hands out pages of 999 items and refuses the request at
    cursor 1998. *)
Definition shortHost : Host :=
  {| accepts := fun o => negb (o =? 1998);
     readError := fun _ => None;
     pageFill := fun _ => 999 |}.


(** A server that refuses every request. *)
Definition busyHost : Host :=
  {| accepts := fun _ => false;
     readError := fun _ => None;
     pageFill := fun _ => 1000 |}.


(** The server over four invocations: it is busy during the second one
    (numbered 1) and answers in full otherwise. *)
Definition hiccup (i : nat) : Host :=
  if i =? 1 then busyHost else idealHost.

(** The store with the procedure not installed yet. *)
Definition bareDb : Db :=
  {| themes := threeThemes;
     scripts := [];
     extensions := [mkExtension "x1" "e1" "Ext One"; mkExtension "x2" "e2" "Ext Two"] |}.

(** The store with the procedure installed and no captured theme. *)
Definition dullDb : Db :=
  {| themes := [mkTheme "b" "e1" false];
     scripts := [samplingDefinition];
     extensions := [mkExtension "x1" "e1" "Ext One"] |}.

End Sample.

(** ** Observations on runs *)

(** A computation is quiet when it leaves the context alone and executes no
    stored procedure. *)
Definition quiet {A} (m : Async A) : Prop :=
  forall s, ctx (snd (m s)) = ctx s /\
            ThemeExtensionFetch.executions (trace (snd (m s)))
            = ThemeExtensionFetch.executions (trace s).

(** An event that is not the execution of a stored procedure. *)
Definition not_execution (ev : Event) : Prop :=
  ThemeExtensionFetch.executions [ev] = [].

(** What holds of the handler's prefix run from [s]: it never touches the
    context, and it executes the procedure at most once, by name, with
    [undefined]; when it settles it has executed it exactly once and passes
    on the [randomTheme] of the body that this execution returned. *)
Definition sampled (env : Env) (s : Sys) (out : Settled (option Sproc.Item) * Sys) : Prop :=
  ctx (snd out) = ctx s /\
  ((ThemeExtensionFetch.executions (trace (snd out)) = ThemeExtensionFetch.executions (trace s) /\
    forall rt, fst out <> Ok rt)
   \/
   (ThemeExtensionFetch.executions (trace (snd out)) =
      ThemeExtensionFetch.executions (trace s) ++ [("getRandomTheme", Sproc.Undefined)] /\
    forall rt, fst out = Ok rt ->
      exists se body,
        fst (ThemeExtensionFetch.execute env {| handle_id := "getRandomTheme" |} Sproc.Undefined se)
          = Ok (Some body) /\
        db se = db (snd out) /\
        Sproc.randomTheme body = rt)).

(** No remote call is rejected. *)
Definition noFaults (env : Env) : Prop :=
  forall ev, fault env ev = None.

(** Every installed procedure of that name carries the sampling script. *)
Definition genuine (sprocId : string) (l : list StoredProcedureDefinition) : Prop :=
  forall d, In d l -> sproc_id d = sprocId -> exists name, sproc_body d = SamplingScript name.

(** The procedure of that name can be obtained: it is installed, or the
    store answers a creation with status 200. *)
Definition obtainable (env : Env) (sprocId : string) (l : list StoredProcedureDefinition) : Prop :=
  ThemeExtensionFetch.found sprocId l = true \/ createStatus env = 200.

(** What a run of the fetch handler may do to the database: documents are
    left alone, and the scripts gain at most the sampling definition. *)
Definition documents_kept (sprocId : string) (d d' : Db) : Prop :=
  themes d' = themes d /\
  extensions d' = extensions d /\
  (scripts d' = scripts d \/
   scripts d' = scripts d ++ [{| sproc_id := sprocId; sproc_body := SamplingScript sprocId |}]).

(** * Properties *)

(** ** Lists cut into pages *)

Section Pages.

Context {A : Type}.

(** Two consecutive pages make one longer page. *)
Lemma firstn_next_page (l : list A) : forall k n,
  firstn k l ++ firstn n (skipn (List.length (firstn k l)) l)
  = firstn (List.length (firstn k l) + n) l.
Proof.
  induction l as [|x l IH]; intros k n.
  - now destruct k, n.
  - destruct k as [|k]; simpl; [reflexivity|].
    now rewrite IH.
Qed.

Lemma skipn_plus (l : list A) : forall o j,
  skipn (o + j) l = skipn j (skipn o l).
Proof.
  induction l as [|x l IH]; intros o j.
  - now rewrite !skipn_nil.
  - destruct o as [|o]; simpl; [reflexivity|]. apply IH.
Qed.

Lemma firstn_own_length (l : list A) : forall k,
  firstn (List.length (firstn k l)) l = firstn k l.
Proof.
  induction l as [|x l IH]; intros [|k]; simpl; try reflexivity.
  now rewrite IH.
Qed.

(** A page read at cursor [o] extends the prefix of length [o]. *)
Lemma prefix_then_page (k : nat) : forall (o : nat) (l : list A),
  o <= List.length l ->
  firstn o l ++ firstn k (skipn o l)
  = firstn (o + List.length (firstn k (skipn o l))) l.
Proof.
  induction o as [|o IH]; intros l Ho.
  - simpl. now rewrite firstn_own_length.
  - destruct l as [|x l]; simpl in Ho; [lia|].
    simpl. f_equal. apply IH. lia.
Qed.

(** A page that reaches the end of the stream is everything that was left. *)
Lemma last_page (l : list A) (o k : nat) :
  List.length l <= o + List.length (firstn k (skipn o l)) ->
  firstn k (skipn o l) = skipn o l.
Proof.
  intros H. apply firstn_all2.
  rewrite length_firstn, length_skipn in H. rewrite length_skipn. lia.
Qed.

(** Pages only contain elements of the stream. *)
Lemma in_segment (l : list A) (o n : nat) (x : A) :
  In x (firstn n (skipn o l)) -> In x l.
Proof.
  intros H.
  rewrite <- (firstn_skipn o l). apply in_or_app. right.
  rewrite <- (firstn_skipn n (skipn o l)). apply in_or_app. now left.
Qed.

End Pages.

(** ** The sampling procedure *)

Arguments Sproc.maxResult : simpl never.

Section SamplingRun.

Import Sproc.

Variable host : Host.
Variable docs : list Theme.
Variable rnd : Q.

Local Abbreviation M := (matching docs).

(** [query] always submits [filterQuery] through [queryDocuments]. *)
Lemma query_is_filtered (opts : ResponseOptions) :
  query host docs opts = serve host M opts.
Proof. reflexivity. Qed.

Lemma tryQuery_step (fuel : nat) (st : State) (tok : Continuation) :
  tryQuery host docs rnd (S fuel) st tok =
    if maxResult <=? List.length (result st)
    then Returned (setBody rnd st tok)
    else match query host docs {| continuation := tok; pageSize := maxResult |} with
         | Refused => Returned (setBody rnd st tok)
         | Delivered err docFeed next =>
             onReadDocuments rnd (tryQuery host docs rnd fuel) st err docFeed next
         end.
Proof. reflexivity. Qed.

(** Every element of the query's result stream is the projection of a
    captured document of the container. *)
Lemma matching_captured : Forall (captured_in docs) M.
Proof.
  unfold matching. apply Forall_forall. intros it Hin.
  apply in_map_iff in Hin. destruct Hin as [d [<- Hd]].
  apply filter_In in Hd. destruct Hd as [Hd Hc].
  exists d. repeat split; assumption.
Qed.

Lemma segment_captured (o n : nat) :
  Forall (captured_in docs) (firstn n (skipn o M)).
Proof.
  apply Forall_forall. intros it Hin.
  apply in_segment in Hin.
  exact (proj1 (Forall_forall _ _) matching_captured it Hin).
Qed.

(** Whatever the server decides, an invocation that returns has appended
    to [result] one contiguous segment of the stream, starting at the
    cursor it was given. *)
Lemma tryQuery_segment : forall budget st tok st',
  tryQuery host docs rnd budget st tok = Returned st' ->
  exists n, result st' = result st ++ firstn n (skipn (cursor_of tok) M).
Proof.
  induction budget as [|budget IH]; intros st tok st' H; [discriminate|].
  rewrite tryQuery_step in H.
  destruct (maxResult <=? List.length (result st)).
  { injection H as <-. exists 0. simpl. now rewrite app_nil_r. }
  rewrite query_is_filtered in H. unfold serve in H. cbn [continuation pageSize] in H.
  destruct (accepts host (cursor_of tok)); cbn [negb] in H.
  2:{ injection H as <-. exists 0. simpl. now rewrite app_nil_r. }
  destruct (readError host (cursor_of tok)); [discriminate|].
  unfold onReadDocuments in H.
  set (page := firstn (Nat.min maxResult (pageFill host (cursor_of tok)))
                 (skipn (cursor_of tok) M)) in *.
  destruct (cursor_of tok + List.length page <? List.length M); cbn [truthy] in H.
  - apply IH in H. destruct H as [n Hn]. cbn [result cursor_of] in Hn.
    exists (List.length page + n).
    rewrite Hn, <- app_assoc. f_equal.
    rewrite skipn_plus. subst page. apply firstn_next_page.
  - injection H as <-. cbn [setBody result].
    now exists (Nat.min maxResult (pageFill host (cursor_of tok))).
Qed.

(** With a cooperative server that makes progress, and fewer matches than
    the cap, the scan started anywhere inside the stream runs to its end. *)
Lemma tryQuery_exhausts :
  cooperative host -> progresses host ->
  List.length M < maxResult ->
  forall budget st tok,
    result st = firstn (cursor_of tok) M ->
    cursor_of tok <= List.length M ->
    List.length M - cursor_of tok < budget ->
    tryQuery host docs rnd budget st tok =
      Returned (setBody rnd {| result := M; responseBody := responseBody st |} Null).
Proof.
  intros [Hacc Herr] Hprog Hcap.
  induction budget as [|budget IH]; intros st tok Hres Ho Hfuel; [lia|].
  rewrite tryQuery_step.
  assert (Hlen : List.length (result st) < maxResult).
  { rewrite Hres, length_firstn. lia. }
  apply Nat.leb_gt in Hlen. rewrite Hlen.
  rewrite query_is_filtered. unfold serve. cbn [continuation pageSize].
  rewrite Hacc, Herr. cbn [negb]. unfold onReadDocuments.
  set (o := cursor_of tok) in *.
  set (page := firstn (Nat.min maxResult (pageFill host o)) (skipn o M)).
  destruct (o + List.length page <? List.length M) eqn:Hnext; cbn [truthy].
  - apply Nat.ltb_lt in Hnext.
    assert (Hpage : 1 <= List.length page).
    { subst page. rewrite length_firstn, length_skipn.
      specialize (Hprog o). unfold maxResult. lia. }
    rewrite IH; cbn [result responseBody cursor_of]; try lia.
    + reflexivity.
    + rewrite Hres. subst page. now apply prefix_then_page.
  - apply Nat.ltb_ge in Hnext.
    subst page. rewrite last_page by exact Hnext.
    now rewrite Hres, firstn_skipn.
Qed.



End SamplingRun.

(** ** The random index *)

Section RandomIndex.

Import Sproc.

Variable rnd : Q.

(** Over an empty range the draw does not matter. *)
Lemma getRandomInt_empty_range : getRandomInt rnd 0 (-1) = 0%Z.
Proof.
  unfold getRandomInt. change (-1 - 0 + 1)%Z with 0%Z.
  rewrite (Qfloor_comp (rnd * inject_Z 0)%Q 0%Q) by ring.
  reflexivity.
Qed.

(** Over [0 .. n-1] the index is in range. *)
Lemma getRandomInt_in_range (n : Z) :
  (0 <= rnd)%Q -> (rnd < 1)%Q -> (0 < n)%Z ->
  (0 <= getRandomInt rnd 0 (n - 1) < n)%Z.
Proof.
  intros H0 H1 Hn. unfold getRandomInt.
  replace (n - 1 - 0 + 1)%Z with n by lia. rewrite Z.add_0_r.
  assert (Hpos : (inject_Z 0 < inject_Z n)%Q) by (now rewrite <- Zlt_Qlt).
  change (inject_Z 0) with 0%Q in Hpos.
  split.
  - change 0%Z with (Qfloor 0%Q). apply Qfloor_resp_le.
    apply Qmult_le_0_compat; [exact H0 | now apply Qlt_le_weak].
  - rewrite Zlt_Qlt.
    apply Qle_lt_trans with (rnd * inject_Z n)%Q; [apply Qfloor_le|].
    setoid_replace (inject_Z n) with (1 * inject_Z n)%Q at 2 by ring.
    now apply Qmult_lt_compat_r.
Qed.

Lemma index_in_range {A} (l : list A) (i : Z) :
  (0 <= i < Z.of_nat (List.length l))%Z ->
  exists x, index l i = Some x /\ In x l.
Proof.
  intros [Hlo Hhi]. unfold index.
  destruct (Z.ltb_spec i 0) as [?|_]; [lia|].
  destruct (nth_error l (Z.to_nat i)) as [x|] eqn:E.
  - exists x. split; [reflexivity|]. eapply nth_error_In; eassumption.
  - apply nth_error_None in E. lia.
Qed.

(** [setBody] over a non-empty accumulator picks one of its elements. *)
Lemma setBody_chooses (st : State) (tok : Continuation) :
  (0 <= rnd)%Q -> (rnd < 1)%Q -> result st <> [] ->
  exists chosen,
    In chosen (result st) /\
    setBody rnd st tok =
      {| result := result st;
         responseBody := Some {| randomTheme := Some chosen;
                                 continuationToken := tok |} |}.
Proof.
  intros H0 H1 Hne. unfold setBody.
  destruct (index_in_range (result st)
              (getRandomInt rnd 0 (Z.of_nat (List.length (result st)) - 1)))
    as [x [Hx Hin]].
  { apply getRandomInt_in_range; try assumption.
    destruct (result st); [congruence | simpl; lia]. }
  exists x. now rewrite Hx.
Qed.

End RandomIndex.

(** ** Claims about the sampling procedure *)

Section ResumedScan.

Import Sproc.

Variable hosts : nat -> Host.
Variable docs : list Theme.
Variable rnds : nat -> Q.

Local Abbreviation M := (matching docs).


End ResumedScan.

Section SamplingClaims.

Import Sproc.

(** C2 (as amended).  On a cooperative server that makes progress, over a
    container whose set of matching documents is non-empty and smaller than
    the cap, one invocation started with an empty token returns, has
    accumulated exactly the matching documents, sets a [null] continuation
    token, and picks an element of the matching set. *)
Theorem sampling_below_cap (host : Host) (docs : list Theme) (rnd : Q) (budget : nat) :
  cooperative host -> progresses host ->
  (0 <= rnd)%Q -> (rnd < 1)%Q ->
  0 < List.length (matching docs) ->
  List.length (matching docs) < maxResult ->
  List.length (matching docs) < budget ->
  exists chosen,
    getRandomTheme host docs rnd budget Undefined =
      Returned {| result := matching docs;
                  responseBody := Some {| randomTheme := Some chosen;
                                          continuationToken := Null |} |}
    /\ In chosen (matching docs)
    /\ captured_in docs chosen.
Proof.
  intros Hco Hprog H0 H1 Hne Hcap Hbudget.
  unfold getRandomTheme.
  rewrite (tryQuery_exhausts host docs rnd Hco Hprog Hcap);
    cbn [cursor_of result firstn]; try lia; try reflexivity.
  destruct (setBody_chooses rnd
              {| result := matching docs; responseBody := None |} Null H0 H1)
    as [chosen [Hin Hset]].
  { cbn [result]. destruct (matching docs); [simpl in Hne; lia | discriminate]. }
  cbn [result responseBody] in *.
  exists chosen. rewrite Hset. repeat split; try assumption.
  exact (proj1 (Forall_forall _ _) (matching_captured docs) chosen Hin).
Qed.

Lemma sampling_below_cap_witness :
  exists chosen,
    getRandomTheme idealHost Sample.threeThemes (1 # 2) 5 Undefined =
      Returned {| result := matching Sample.threeThemes;
                  responseBody := Some {| randomTheme := Some chosen;
                                          continuationToken := Null |} |}
    /\ In chosen (matching Sample.threeThemes)
    /\ captured_in Sample.threeThemes chosen.
Proof.
  apply (sampling_below_cap idealHost Sample.threeThemes (1 # 2) 5).
  - split; intros o; reflexivity.
  - intros o. simpl. lia.
  - unfold Qle. simpl. lia.
  - reflexivity.
  - simpl. lia.
  - unfold maxResult. simpl. lia.
  - simpl. lia.
Defined.

(** C2 as stated fails when nothing matches: the set of matching documents
    is smaller than the cap, the invocation returns a [null] token, but
    [randomTheme] is [undefined], so no element of the matching set is
    chosen. *)
Lemma sampling_without_match_picks_nothing :
  List.length (matching [mkTheme "b" "e1" false]) < maxResult /\
  getRandomTheme idealHost [mkTheme "b" "e1" false] (1 # 2) 5 Undefined =
    Returned {| result := [];
                responseBody := Some {| randomTheme := None;
                                        continuationToken := Null |} |} /\
  ~ (exists st b chosen,
       getRandomTheme idealHost [mkTheme "b" "e1" false] (1 # 2) 5 Undefined = Returned st /\
       responseBody st = Some b /\
       randomTheme b = Some chosen /\
       In chosen (matching [mkTheme "b" "e1" false])).
Proof.
  split; [unfold maxResult; simpl; lia|]. split; [reflexivity|].
  intros [st [b [chosen [_ [_ [_ Hin]]]]]]. exact Hin.
Qed.




(** The other two server conditions of C3 are needed as well: a refused
    first request hands back the [undefined] it was given, with nothing
    accumulated and no cursor to resume from, and a read error throws. *)
Example sampling_above_cap_needs_cooperation :
  getRandomTheme Sample.busyHost Sample.manyThemes (1 # 2) 5 Undefined =
    Returned {| result := [];
                responseBody := Some {| randomTheme := None;
                                        continuationToken := Undefined |} |}
  /\ getRandomTheme Sample.failingHost Sample.manyThemes (1 # 2) 5 Undefined =
       Threw "Error while reading document: ServiceUnavailable".
Proof. split; reflexivity. Qed.

(** C7.  Each page comes from [queryDocuments] with the fixed filter, so a
    delivered feed holds only projections of documents whose
    [imageCaptured] is [true]; [onReadDocuments] appends the feed as it
    is.  Hence, whatever the server decides, the accumulator of an
    invocation that returns is a contiguous segment of the stream of
    matching documents and contains matching documents only. *)
Theorem sampling_accumulates_only_captured (host : Host) (docs : list Theme)
    (rnd : Q) (budget : nat) (tok : Continuation) (st : State) :
  getRandomTheme host docs rnd budget tok = Returned st ->
  (forall opts err docFeed next,
      query host docs opts = Delivered err docFeed next ->
      Forall (captured_in docs) docFeed)
  /\ (exists n, result st = firstn n (skipn (cursor_of tok) (matching docs)))
  /\ Forall (captured_in docs) (result st).
Proof.
  intros Hrun. split.
  - intros opts err docFeed next Hq.
    rewrite query_is_filtered in Hq. unfold serve in Hq.
    destruct (negb _); [discriminate|].
    destruct (readError _ _); injection Hq as <- <- <-.
    + constructor.
    + apply segment_captured.
  - apply tryQuery_segment in Hrun. destruct Hrun as [n Hn].
    cbn [result app] in Hn. split.
    + now exists n.
    + rewrite Hn. apply segment_captured.
Qed.

Lemma sampling_accumulates_only_captured_witness :
  (forall opts err docFeed next,
      query idealHost Sample.threeThemes opts = Delivered err docFeed next ->
      Forall (captured_in Sample.threeThemes) docFeed)
  /\ (exists n, [Projected "a"; Projected "c"] =
                firstn n (skipn 0 (matching Sample.threeThemes)))
  /\ Forall (captured_in Sample.threeThemes) [Projected "a"; Projected "c"].
Proof.
  apply (sampling_accumulates_only_captured idealHost Sample.threeThemes
           (1 # 2) 5 Undefined
           {| result := [Projected "a"; Projected "c"];
              responseBody := Some {| randomTheme := Some (Projected "c");
                                      continuationToken := Null |} |}).
  reflexivity.
Defined.

(** C10.  Finalizing with an empty accumulator does not throw:
    [getRandomInt(0, -1)] is [0], [result[0]] is [undefined], and the body
    set is [{ randomTheme: undefined, continuationToken }] with the token
    [setBody] was given. *)
Theorem setBody_on_empty_result (rnd : Q) (tok : Continuation) (previous : option Body) :
  getRandomInt rnd 0 (Z.of_nat (List.length (@nil Item)) - 1) = 0%Z
  /\ index (@nil Item) 0 = None
  /\ setBody rnd {| result := []; responseBody := previous |} tok =
       {| result := [];
          responseBody := Some {| randomTheme := None; continuationToken := tok |} |}.
Proof.
  assert (H : getRandomInt rnd 0 (Z.of_nat (List.length (@nil Item)) - 1) = 0%Z)
    by apply getRandomInt_empty_range.
  repeat split; try assumption.
  unfold setBody. cbn [result]. now rewrite H.
Qed.

End SamplingClaims.

(** ** Asynchronous steps *)

Section Steps.

Context {A B : Type}.

Lemma bind_ok (m : Async A) (k : A -> Async B) (s s' : Sys) (a : A) :
  m s = (Ok a, s') -> bind m k s = k a s'.
Proof. intros H. unfold bind. now rewrite H. Qed.

Lemma bind_rejected (m : Async A) (k : A -> Async B) (s s' : Sys) (e : Error) :
  m s = (Rejected e, s') -> bind m k s = (Rejected e, s').
Proof. intros H. unfold bind. now rewrite H. Qed.

Lemma remote_ok (env : Env) (ev : Event) (perform : Db -> A * Db) (s : Sys) :
  fault env ev = None ->
  remote env ev perform s =
    (Ok (fst (perform (db s))),
     {| db := snd (perform (db s)); ctx := ctx s; trace := trace s ++ [ev] |}).
Proof.
  intros H. unfold remote. rewrite H. now destruct (perform (db s)).
Qed.

Lemma remote_fault (env : Env) (ev : Event) (perform : Db -> A * Db) (s : Sys) (e : string) :
  fault env ev = Some e ->
  remote env ev perform s =
    (Rejected (StoreError e),
     {| db := db s; ctx := ctx s; trace := trace s ++ [ev] |}).
Proof. intros H. unfold remote. now rewrite H. Qed.

End Steps.

(** ** ExtensionUpsert *)

Section UpsertClaims.

Import ExtensionUpsert.

(** The [try] block stores 200 with the id of the upserted document when
    no remote call is rejected. *)
Lemma tryBlock_success (env : Env) (e : Extension) (s : Sys) :
  fault env (DatabasesCreateIfNotExists "onlyThemesDb") = None ->
  fault env (ContainersCreateIfNotExists "extensions") = None ->
  fault env (ItemsUpsert (ext_id e)) = None ->
  exists s',
    tryBlock env e s = (Ok tt, s') /\
    res (ctx s') = Some {| status := 200; body := IdBody (ext_id e) |} /\
    extensions (db s') = replace_or_add e (extensions (db s)).
Proof.
  intros F1 F2 F3. unfold tryBlock, createIfNotExists, upsert.
  rewrite (bind_ok _ _ _ _ _ (remote_ok env _ _ s F1)).
  rewrite (bind_ok _ _ _ _ _ (remote_ok env _ _ _ F2)).
  rewrite (bind_ok _ _ _ _ _ (remote_ok env _ _ _ F3)).
  eexists. split; [reflexivity|]. split; reflexivity.
Qed.

(** The guarded [try]/[catch] always settles, having stored either 200 with
    the document's id or 500 with the error caught. *)
Lemma guarded_settles (env : Env) (e : Extension) (s : Sys) :
  exists s',
    guarded env (Some e) s = (Ok tt, s') /\
    logged (ctx s') = logged (ctx s) /\
    (res (ctx s') = Some {| status := 200; body := IdBody (ext_id e) |} \/
     exists err, res (ctx s') = Some {| status := 500; body := ErrBody err |}).
Proof.
  unfold guarded, try_catch, tryBlock, catchBlock, createIfNotExists, upsert,
    bind, remote, set_res.
  destruct (fault env (DatabasesCreateIfNotExists "onlyThemesDb")) as [e1|];
    [eexists; split; [reflexivity|]; split; [reflexivity|]; right; eexists; reflexivity|].
  destruct (fault env (ContainersCreateIfNotExists "extensions")) as [e2|];
    [eexists; split; [reflexivity|]; split; [reflexivity|]; right; eexists; reflexivity|].
  cbn [db ctx trace].
  destruct (fault env (ItemsUpsert (ext_id e))) as [e3|];
    [eexists; split; [reflexivity|]; split; [reflexivity|]; right; eexists; reflexivity|].
  eexists. split; [reflexivity|]. split; [reflexivity|]. left. reflexivity.
Qed.

(** C1.  For every present extension the handler settles with status 404
    and no body: the [try]/[catch] has stored 200 with the resource id or
    500 with the error, and the trailing assignment replaces it. *)
Theorem upsert_present_always_404 (env : Env) (e : Extension) (s : Sys) :
  exists tried,
    guarded env (Some e) (snd (log ("DataParser: " ++ displayName e)%string s)) = (Ok tt, tried)
    /\ (res (ctx tried) = Some {| status := 200; body := IdBody (ext_id e) |} \/
        exists err, res (ctx tried) = Some {| status := 500; body := ErrBody err |})
    /\ httpTrigger env (Some e) s =
         (Ok tt,
          {| db := db tried;
             ctx := {| res := Some {| status := 404; body := NoBody |};
                       logged := logged (ctx s) ++ [("DataParser: " ++ displayName e)%string] |};
             trace := trace tried |}).
Proof.
  destruct (guarded_settles env e (snd (log ("DataParser: " ++ displayName e)%string s)))
    as [tried [Hrun [Hlog Hres]]].
  exists tried. split; [exact Hrun|]. split; [exact Hres|].
  unfold httpTrigger, member.
  rewrite (bind_ok (ret (displayName e)) _ s s (displayName e) eq_refl).
  rewrite (bind_ok (log _) _ s _ tt eq_refl).
  rewrite (bind_ok _ _ _ _ _ Hrun).
  unfold set_res. rewrite Hlog. reflexivity.
Qed.

(** C5 on the code.  With the binding absent the handler rejects at the
    [context.log] line, on [extension.displayName]: the guard and the 404
    assignment are never reached, no response is set and nothing is
    written. *)
Theorem upsert_absent_rejects (env : Env) (s : Sys) :
  httpTrigger env None s =
    (Rejected (TypeError "Cannot read properties of undefined (reading 'displayName')"), s).
Proof. reflexivity. Qed.

End UpsertClaims.

(** ** The stored procedure installer *)

Section InstallerClaims.

Import ThemeExtensionFetch.

(** The presence test looks at the [id] of each definition and at nothing
    else. *)
Lemma found_by_id (sprocId : string) (l : list StoredProcedureDefinition) :
  found sprocId l = true <-> In sprocId (map sproc_id l).
Proof.
  unfold found. induction l as [|d l IH]; simpl.
  - split; [discriminate | tauto].
  - destruct (String.eqb_spec (sproc_id d) sprocId) as [E|N].
    + split; auto.
    + rewrite IH. split; [auto | intros [E|H]; [contradiction | exact H]].
Qed.

(** When nothing of that name is installed and no call is rejected, the
    call stores the definition built for that name. *)
Lemma getStoredProcedure_installs (env : Env) (sprocId : string) (s : Sys) :
  ~ In sprocId (map sproc_id (scripts (db s))) ->
  fault env StoredProceduresReadAll = None ->
  fault env (StoredProceduresCreate sprocId) = None ->
  scripts (db (snd (getStoredProcedure env sprocId s))) =
    scripts (db s) ++ [{| sproc_id := sprocId; sproc_body := SamplingScript sprocId |}].
Proof.
  intros Hnot F1 F2. unfold getStoredProcedure, readAll, create.
  rewrite (bind_ok _ _ _ _ _ (remote_ok env _ _ s F1)). cbn [fst snd].
  destruct (found sprocId (scripts (db s))) eqn:Hf.
  { apply found_by_id in Hf. contradiction. }
  cbn [sproc_id].
  rewrite (bind_ok _ _ _ _ _ (remote_ok env _ _ _ F2)). cbn [fst snd].
  now destruct (createStatus env =? 200).
Qed.

(** Whenever the call settles, a procedure of that name is installed
    afterwards: it was found, or it has just been created. *)
Lemma getStoredProcedure_settled_installed (env : Env) (sprocId : string) (s s' : Sys)
    (h : option StoredProcedure) :
  getStoredProcedure env sprocId s = (Ok h, s') ->
  In sprocId (map sproc_id (scripts (db s'))).
Proof.
  unfold getStoredProcedure, readAll, create, bind, remote.
  destruct (fault env StoredProceduresReadAll); [discriminate|].
  cbn [fst snd db ctx trace].
  destruct (found sprocId (scripts (db s))) eqn:Hf.
  - intros H. injection H as _ <-. now apply found_by_id.
  - cbn [sproc_id]. destruct (fault env (StoredProceduresCreate sprocId)); [discriminate|].
    cbn [fst snd]. destruct (createStatus env =? 200); intros H;
      injection H as _ <-; cbn [db scripts];
      rewrite map_app; apply in_or_app; right; now left.
Qed.

(** C8.  When a procedure of the target name is installed, the call hands
    back a handle by name after the listing alone: the database is as
    before and no creation is issued, whatever the installed body is. *)
Theorem getStoredProcedure_reuses (env : Env) (sprocId : string) (s : Sys) :
  In sprocId (map sproc_id (scripts (db s))) ->
  (fault env StoredProceduresReadAll = None ->
   getStoredProcedure env sprocId s =
     (Ok (Some {| handle_id := sprocId |}),
      {| db := db s; ctx := ctx s; trace := trace s ++ [StoredProceduresReadAll] |}))
  /\ db (snd (getStoredProcedure env sprocId s)) = db s
  /\ creations (trace (snd (getStoredProcedure env sprocId s))) = creations (trace s)
  /\ In sprocId (map sproc_id (scripts (db (snd (getStoredProcedure env sprocId s))))).
Proof.
  intros Hin.
  assert (Hcre : forall tr, creations (tr ++ [StoredProceduresReadAll]) = creations tr).
  { induction tr as [|ev tr IH]; [reflexivity|]. destruct ev; simpl; now rewrite IH. }
  apply found_by_id in Hin.
  unfold getStoredProcedure, readAll.
  destruct (fault env StoredProceduresReadAll) as [e|] eqn:F.
  - rewrite (bind_rejected _ _ _ _ _ (remote_fault env _ _ s e F)). cbn [snd db trace].
    split; [discriminate|]. split; [reflexivity|]. split; [apply Hcre|].
    now apply found_by_id.
  - rewrite (bind_ok _ _ _ _ _ (remote_ok env _ _ s F)). cbn [fst snd]. rewrite Hin.
    cbn [ret snd db trace].
    split; [reflexivity|]. split; [reflexivity|]. split; [apply Hcre|].
    now apply found_by_id.
Qed.

Lemma getStoredProcedure_reuses_witness :
  getStoredProcedure (Sample.calm 201) "getRandomTheme" (Sample.fresh Sample.staleDb) =
    (Ok (Some {| handle_id := "getRandomTheme" |}),
     {| db := Sample.staleDb;
        ctx := {| res := None; logged := [] |};
        trace := [StoredProceduresReadAll] |})
  /\ creations (trace (snd (getStoredProcedure (Sample.calm 201) "getRandomTheme"
                               (Sample.fresh Sample.staleDb)))) = [].
Proof.
  destruct (getStoredProcedure_reuses (Sample.calm 201) "getRandomTheme"
              (Sample.fresh Sample.staleDb)) as [Hrun [_ [Hcre _]]].
  - simpl. left. reflexivity.
  - split; [apply Hrun; reflexivity | exact Hcre].
Defined.

End InstallerClaims.

(** ** ThemeExtensionFetch *)

Section QuietSteps.

Import ThemeExtensionFetch.

Context {A B : Type}.

Lemma executions_app (tr tr' : list Event) :
  executions (tr ++ tr') = executions tr ++ executions tr'.
Proof.
  induction tr as [|ev tr IH]; [reflexivity|].
  destruct ev; simpl; now rewrite IH.
Qed.

Lemma quiet_ret (a : A) : quiet (ret a).
Proof. intros s. now split. Qed.

Lemma quiet_throw (e : Error) : quiet (@throw A e).
Proof. intros s. now split. Qed.

Lemma quiet_member (x : option A) (f : A -> B) (name : string) :
  quiet (member x f name).
Proof. destruct x; intros s; now split. Qed.

Lemma quiet_remote (env : Env) (ev : Event) (perform : Db -> A * Db) :
  not_execution ev -> quiet (remote env ev perform).
Proof.
  intros Hev s. unfold remote.
  destruct (fault env ev); [|destruct (perform (db s))];
    cbn [snd ctx trace]; rewrite executions_app, Hev, app_nil_r; now split.
Qed.

Lemma quiet_bind (m : Async A) (k : A -> Async B) :
  quiet m -> (forall a, quiet (k a)) -> quiet (bind m k).
Proof.
  intros Hm Hk s. unfold bind. specialize (Hm s).
  destruct (m s) as [[a|e] s1]; cbn [snd] in *.
  - destruct (Hk a s1) as [Hc Ht]. split; [now rewrite Hc | now rewrite Ht].
  - exact Hm.
Qed.

(** A quiet step followed by [k]: a property holds of the whole if it holds
    of a quiet rejection and of [k] run from any state with the same
    context and the same executions. *)
Lemma quiet_then (m : Async A) (k : A -> Async B) (s : Sys)
    (P : Settled B * Sys -> Prop) :
  quiet m ->
  (forall e s1, ctx s1 = ctx s -> executions (trace s1) = executions (trace s) ->
                P (Rejected e, s1)) ->
  (forall a s1, m s = (Ok a, s1) -> ctx s1 = ctx s ->
                executions (trace s1) = executions (trace s) -> P (k a s1)) ->
  P (bind m k s).
Proof.
  intros Hm Hrej Hok. unfold bind. destruct (Hm s) as [Hc Ht].
  destruct (m s) as [[a|e] s1]; cbn [snd] in *; auto.
Qed.

End QuietSteps.

Section FetchSteps.

Import ThemeExtensionFetch.

Variable env : Env.

Lemma quiet_createIfNotExists (ev : Event) :
  not_execution ev -> quiet (createIfNotExists env ev).
Proof. intros Hev. now apply quiet_remote. Qed.

Lemma quiet_getStoredProcedure (sprocId : string) :
  quiet (getStoredProcedure env sprocId).
Proof.
  unfold getStoredProcedure, readAll, create.
  apply quiet_bind; [now apply quiet_remote|].
  intros storedProcedures. destruct (found sprocId storedProcedures).
  - apply quiet_ret.
  - apply quiet_bind; [now apply quiet_remote|].
    intros sprocResponse. destruct (fst sprocResponse =? 200); apply quiet_ret.
Qed.

(** Both ways of obtaining a handle give the handle of that name. *)
Lemma getStoredProcedure_handle (sprocId : string) (s s' : Sys) (h : StoredProcedure) :
  getStoredProcedure env sprocId s = (Ok (Some h), s') ->
  h = {| handle_id := sprocId |}.
Proof.
  unfold getStoredProcedure, readAll, create, bind, remote.
  destruct (fault env StoredProceduresReadAll); [discriminate|].
  cbn [fst snd db ctx trace].
  destruct (found sprocId (scripts (db s))).
  - intros H. now injection H as <- _.
  - cbn [sproc_id]. destruct (fault env (StoredProceduresCreate sprocId)); [discriminate|].
    cbn [fst snd]. destruct (createStatus env =? 200); intros H.
    + now injection H as <- _.
    + discriminate.
Qed.

(** An execution is recorded once, whatever its outcome, and changes
    neither the database nor the context. *)
Lemma execute_records (h : StoredProcedure) (param : Sproc.Continuation) (s : Sys) :
  ctx (snd (execute env h param s)) = ctx s /\
  db (snd (execute env h param s)) = db s /\
  trace (snd (execute env h param s)) =
    trace s ++ [StoredProcedureExecute (handle_id h) param].
Proof.
  unfold execute.
  destruct (fault env _); [now repeat split|].
  destruct (find _ _); [|now repeat split].
  destruct (runScript _ _ _ _); now repeat split.
Qed.

Lemma sampled_rejected (s : Sys) (e : Error) (s1 : Sys) :
  ctx s1 = ctx s -> executions (trace s1) = executions (trace s) ->
  sampled env s (Rejected e, s1).
Proof.
  intros Hc Ht. split; [exact Hc|]. left. split; [exact Ht | discriminate].
Qed.

Lemma sampleTheme_spec (s : Sys) : sampled env s (sampleTheme env s).
Proof.
  unfold sampleTheme.
  apply quiet_then;
    [now apply quiet_createIfNotExists | apply sampled_rejected |].
  intros _ s1 _ Hc1 Ht1.
  apply quiet_then;
    [now apply quiet_createIfNotExists | intros; apply sampled_rejected; congruence |].
  intros _ s2 _ Hc2 Ht2.
  apply quiet_then;
    [now apply quiet_createIfNotExists | intros; apply sampled_rejected; congruence |].
  intros _ s3 _ Hc3 Ht3.
  apply quiet_then;
    [apply quiet_getStoredProcedure | intros; apply sampled_rejected; congruence |].
  intros sproc s4 Hget Hc4 Ht4.
  destruct sproc as [h|]; [|apply sampled_rejected; congruence].
  apply getStoredProcedure_handle in Hget. subst h.
  destruct (execute_records {| handle_id := "getRandomTheme" |} Sproc.Undefined s4)
    as [Hc5 [Hd5 Ht5]].
  cbn [handle_id] in Ht5. unfold bind.
  destruct (execute env {| handle_id := "getRandomTheme" |} Sproc.Undefined s4)
    as [[resource|e] s5] eqn:Hex; cbn [fst snd] in *.
  - unfold member. destruct resource as [body|]; unfold ret, throw.
    + split; [cbn [snd]; congruence|]. right. cbn [fst snd]. split.
      * rewrite Ht5, executions_app. cbn [executions]. congruence.
      * intros rt Hrt. injection Hrt as <-. exists s4, body.
        rewrite Hex. now repeat split.
    + split; [cbn [snd]; congruence|]. right. cbn [fst snd]. split.
      * rewrite Ht5, executions_app. cbn [executions]. congruence.
      * discriminate.
  - split; [cbn [snd]; congruence|]. right. cbn [fst snd]. split.
    + rewrite Ht5, executions_app. cbn [executions]. congruence.
    + discriminate.
Qed.

(** The tail of the handler executes no stored procedure. *)
Lemma respond_quiet_trace (rt : option Sproc.Item) (s : Sys) :
  executions (trace (snd (respond env rt s))) = executions (trace s).
Proof.
  unfold respond, member, queryThemes, queryExtensions, bind, remote, set_res.
  destruct rt as [item|]; cbn [ret throw snd trace]; [|reflexivity].
  destruct (fault env (ItemsQuery "themes" _));
    cbn [snd trace fst db]; [now rewrite executions_app, app_nil_r|].
  destruct (hd_error _) as [t|]; cbn [ret throw snd trace fst db];
    [|now rewrite executions_app, app_nil_r].
  destruct (fault env (ItemsQuery "extensions" _));
    cbn [snd trace fst db]; now rewrite !executions_app, !app_nil_r.
Qed.

(** The tail of the handler only reads the database. *)
Lemma respond_keeps_db (rt : option Sproc.Item) (s : Sys) :
  db (snd (respond env rt s)) = db s.
Proof.
  unfold respond, member, queryThemes, queryExtensions, bind, remote, set_res.
  destruct rt as [item|]; cbn [ret throw snd db]; [|reflexivity].
  destruct (fault env (ItemsQuery "themes" _)); cbn [snd db fst]; [reflexivity|].
  destruct (hd_error _) as [t|]; cbn [ret throw snd db fst]; [|reflexivity].
  destruct (fault env (ItemsQuery "extensions" _)); reflexivity.
Qed.

(** When the tail settles it has set status 200 with the theme whose id is
    the sampled one; it never sets any other status. *)
Lemma respond_settles (rt : option Sproc.Item) (s : Sys) :
  (fst (respond env rt s) = Ok tt ->
   exists item t ext,
     rt = Some item /\ theme_id t = Sproc.item_id item /\ In t (themes (db s)) /\
     res (ctx (snd (respond env rt s))) =
       Some {| status := 200; body := PairBody (Some t) ext |})
  /\ (fst (respond env rt s) <> Ok tt -> ctx (snd (respond env rt s)) = ctx s).
Proof.
  unfold respond, member, queryThemes, queryExtensions, bind, remote, set_res.
  destruct rt as [item|]; cbn [ret throw fst snd];
    [|split; [discriminate | reflexivity]].
  destruct (fault env (ItemsQuery "themes" _));
    cbn [fst snd db ctx trace]; [split; [discriminate | reflexivity]|].
  destruct (hd_error _) as [t|] eqn:Ht; cbn [ret throw fst snd db ctx trace];
    [|split; [discriminate | reflexivity]].
  assert (Hin : In t (filter (fun c => String.eqb (theme_id c) (Sproc.item_id item))
                        (themes (db s)))).
  { destruct (filter _ _); [discriminate | injection Ht as <-; now left]. }
  apply filter_In in Hin. destruct Hin as [Hin Hid]. apply String.eqb_eq in Hid.
  destruct (fault env (ItemsQuery "extensions" _));
    cbn [fst snd db ctx trace res]; [split; [discriminate | reflexivity]|].
  split; [|congruence].
  intros _. exists item, t. eexists. repeat split; try assumption.
Qed.

End FetchSteps.

Section FetchClaims.

Import ThemeExtensionFetch.

(** The status of a response set by the handler is 200: the 404 arm of
    [theme ? 200 : 404] is never taken. *)
Lemma fetch_never_404 (env : Env) (userId : option string) (s : Sys) (r : Response) :
  res (ctx s) = None ->
  res (ctx (snd (httpTrigger env userId s))) = Some r ->
  status r = 200.
Proof.
  intros Hnone Hres. unfold httpTrigger, bind in Hres.
  destruct (sampleTheme_spec env s) as [Hc _].
  destruct (sampleTheme env s) as [[rt|e] s1]; cbn [snd] in *.
  - destruct (respond_settles env rt s1) as [Hok Hrej].
    destruct (respond env rt s1) as [[[]|e] s2] eqn:Hr; cbn [fst snd] in *.
    + destruct (Hok eq_refl) as (item & t & ext & _ & _ & _ & Hset).
      rewrite Hset in Hres. now injection Hres as <-.
    + rewrite Hrej in Hres by discriminate. congruence.
  - congruence.
Qed.

(** C4 on the code.  When the look-up of the sampled id finds no theme, the
    handler rejects on [theme.extensionId] before any response is
    assigned: the context is the one it started with, not a 404. *)
Theorem fetch_absent_theme_rejects (env : Env) (userId : option string)
    (s s1 : Sys) (item : Sproc.Item) :
  sampleTheme env s = (Ok (Some item), s1) ->
  fault env (ItemsQuery "themes" (Sproc.item_id item)) = None ->
  filter (fun c => String.eqb (theme_id c) (Sproc.item_id item)) (themes (db s1)) = [] ->
  httpTrigger env userId s =
    (Rejected (TypeError "Cannot read properties of undefined (reading 'extensionId')"),
     {| db := db s1; ctx := ctx s;
        trace := trace s1 ++ [ItemsQuery "themes" (Sproc.item_id item)] |}).
Proof.
  intros Hsample Hfault Hnone.
  destruct (sampleTheme_spec env s) as [Hc _]. rewrite Hsample in Hc. cbn [snd] in Hc.
  unfold httpTrigger. rewrite (bind_ok _ _ _ _ _ Hsample).
  unfold respond, member, queryThemes.
  rewrite (bind_ok (ret (Sproc.item_id item)) _ s1 s1 _ eq_refl).
  rewrite (bind_ok _ _ _ _ _ (remote_ok env _ _ s1 Hfault)). cbn [fst snd].
  rewrite Hnone. cbn [hd_error]. unfold bind, throw. now rewrite Hc.
Qed.

Lemma fetch_absent_theme_rejects_witness :
  httpTrigger (Sample.calm 200) None (Sample.fresh Sample.staleDb) =
    (Rejected (TypeError "Cannot read properties of undefined (reading 'extensionId')"),
     {| db := Sample.staleDb;
        ctx := {| res := None; logged := [] |};
        trace := [DatabasesCreateIfNotExists "onlyThemesDb";
                  ContainersCreateIfNotExists "themes";
                  ContainersCreateIfNotExists "extensions";
                  StoredProceduresReadAll;
                  StoredProcedureExecute "getRandomTheme" Sproc.Undefined;
                  ItemsQuery "themes" "ghost"] |}).
Proof.
  apply (fetch_absent_theme_rejects (Sample.calm 200) None (Sample.fresh Sample.staleDb)
           {| db := Sample.staleDb;
              ctx := {| res := None; logged := [] |};
              trace := [DatabasesCreateIfNotExists "onlyThemesDb";
                        ContainersCreateIfNotExists "themes";
                        ContainersCreateIfNotExists "extensions";
                        StoredProceduresReadAll;
                        StoredProcedureExecute "getRandomTheme" Sproc.Undefined] |}
           (Sproc.Projected "ghost")); reflexivity.
Defined.

(** C9.  When the theme is resolved and no extension carries its
    [extensionId], the handler does not reject: [extension] is [undefined]
    and is only stored in the body, and the response is 200 with the theme
    and no extension. *)
Theorem fetch_without_extension_responds (env : Env) (userId : option string)
    (s s1 : Sys) (item : Sproc.Item) (t : Theme) (rest : list Theme) :
  sampleTheme env s = (Ok (Some item), s1) ->
  fault env (ItemsQuery "themes" (Sproc.item_id item)) = None ->
  fault env (ItemsQuery "extensions" (theme_extensionId t)) = None ->
  filter (fun c => String.eqb (theme_id c) (Sproc.item_id item)) (themes (db s1))
    = t :: rest ->
  filter (fun c => String.eqb (extensionId c) (theme_extensionId t)) (extensions (db s1))
    = [] ->
  httpTrigger env userId s =
    (Ok tt,
     {| db := db s1;
        ctx := {| res := Some {| status := 200; body := PairBody (Some t) None |};
                  logged := logged (ctx s) |};
        trace := (trace s1 ++ [ItemsQuery "themes" (Sproc.item_id item)])
                   ++ [ItemsQuery "extensions" (theme_extensionId t)] |}).
Proof.
  intros Hsample Hf1 Hf2 Hthemes Hexts.
  destruct (sampleTheme_spec env s) as [Hc _]. rewrite Hsample in Hc. cbn [snd] in Hc.
  unfold httpTrigger. rewrite (bind_ok _ _ _ _ _ Hsample).
  unfold respond, member, queryThemes, queryExtensions.
  rewrite (bind_ok (ret (Sproc.item_id item)) _ s1 s1 _ eq_refl).
  rewrite (bind_ok _ _ _ _ _ (remote_ok env _ _ s1 Hf1)). cbn [fst snd].
  rewrite Hthemes. cbn [hd_error].
  rewrite (bind_ok (ret (theme_extensionId t)) _ _ _ _ eq_refl).
  rewrite (bind_ok _ _ _ _ _ (remote_ok env _ _ _ Hf2)). cbn [fst snd db].
  rewrite Hexts. cbn [hd_error]. unfold set_res. cbn [db ctx trace]. now rewrite Hc.
Qed.

Lemma fetch_without_extension_responds_witness :
  httpTrigger (Sample.calm 200) None (Sample.fresh Sample.orphanDb) =
    (Ok tt,
     {| db := Sample.orphanDb;
        ctx := {| res := Some {| status := 200;
                                 body := PairBody (Some (mkTheme "a" "e9" true)) None |};
                  logged := [] |};
        trace := [DatabasesCreateIfNotExists "onlyThemesDb";
                  ContainersCreateIfNotExists "themes";
                  ContainersCreateIfNotExists "extensions";
                  StoredProceduresReadAll;
                  StoredProcedureExecute "getRandomTheme" Sproc.Undefined;
                  ItemsQuery "themes" "a";
                  ItemsQuery "extensions" "e9"] |}).
Proof.
  apply (fetch_without_extension_responds (Sample.calm 200) None
           (Sample.fresh Sample.orphanDb)
           {| db := Sample.orphanDb;
              ctx := {| res := None; logged := [] |};
              trace := [DatabasesCreateIfNotExists "onlyThemesDb";
                        ContainersCreateIfNotExists "themes";
                        ContainersCreateIfNotExists "extensions";
                        StoredProceduresReadAll;
                        StoredProcedureExecute "getRandomTheme" Sproc.Undefined] |}
           (Sproc.Projected "a") (mkTheme "a" "e9" true) []); reflexivity.
Defined.

(** C6.  In every run the handler executes [getRandomTheme] at most once
    and only with [undefined]; in every run that settles it has executed it
    exactly once, and the rest of the run is [respond] applied to the
    [randomTheme] of the body returned by that execution: the returned
    continuation token is not an input of anything that follows, and the
    theme in the response is the one whose id was sampled. *)
Theorem fetch_executes_once (env : Env) (userId : option string) (s : Sys) :
  (executions (trace (snd (httpTrigger env userId s))) = executions (trace s)
   \/ executions (trace (snd (httpTrigger env userId s)))
      = executions (trace s) ++ [("getRandomTheme", Sproc.Undefined)])
  /\ (fst (httpTrigger env userId s) = Ok tt ->
      executions (trace (snd (httpTrigger env userId s)))
        = executions (trace s) ++ [("getRandomTheme", Sproc.Undefined)]
      /\ exists se body s1 item t ext,
           fst (execute env {| handle_id := "getRandomTheme" |} Sproc.Undefined se)
             = Ok (Some body)
           /\ db se = db (snd (httpTrigger env userId s))
           /\ httpTrigger env userId s = respond env (Sproc.randomTheme body) s1
           /\ Sproc.randomTheme body = Some item
           /\ theme_id t = Sproc.item_id item
           /\ res (ctx (snd (httpTrigger env userId s)))
              = Some {| status := 200; body := PairBody (Some t) ext |}).
Proof.
  unfold httpTrigger, bind.
  destruct (sampleTheme_spec env s) as [_ Hex].
  destruct (sampleTheme env s) as [[rt|e] s1]; cbn [fst snd] in *.
  - destruct Hex as [[_ Hno] | [Hone Hbody]]; [now destruct (Hno rt)|].
    destruct (Hbody rt eq_refl) as (se & body & Hrun & Hdb & Hrt).
    pose proof (respond_quiet_trace env rt s1) as Htr.
    pose proof (respond_keeps_db env rt s1) as Hkeep.
    split; [right; congruence|].
    intros Hok. split; [congruence|].
    destruct (respond_settles env rt s1) as [Hset _].
    destruct (Hset Hok) as (item & t & ext & Hsome & Hid & _ & Hres).
    exists se, body, s1, item, t, ext. subst rt.
    repeat split; try assumption. congruence.
  - split; [|discriminate].
    destruct Hex as [[Hsame _] | [Hone _]]; [now left | now right].
Qed.

Lemma fetch_executes_once_witness :
  executions (trace (snd (httpTrigger (Sample.calm 200) None (Sample.fresh Sample.crowdedDb))))
    = [("getRandomTheme", Sproc.Undefined)]
  /\ exists se body s1 item t ext,
       fst (execute (Sample.calm 200) {| handle_id := "getRandomTheme" |} Sproc.Undefined se)
         = Ok (Some body)
       /\ db se = db (snd (httpTrigger (Sample.calm 200) None (Sample.fresh Sample.crowdedDb)))
       /\ httpTrigger (Sample.calm 200) None (Sample.fresh Sample.crowdedDb)
          = respond (Sample.calm 200) (Sproc.randomTheme body) s1
       /\ Sproc.randomTheme body = Some item
       /\ theme_id t = Sproc.item_id item
       /\ res (ctx (snd (httpTrigger (Sample.calm 200) None (Sample.fresh Sample.crowdedDb))))
          = Some {| status := 200; body := PairBody (Some t) ext |}.
Proof.
  destruct (fetch_executes_once (Sample.calm 200) None (Sample.fresh Sample.crowdedDb))
    as [_ Hsettled].
  apply Hsettled. vm_compute. reflexivity.
Defined.

(** In that run the single execution did hand back a cursor, which the
    handler left unused. *)
Example crowded_run_leaves_a_token :
  option_map Sproc.continuationToken
    (match execute (Sample.calm 200) {| handle_id := "getRandomTheme" |} Sproc.Undefined
             (Sample.fresh Sample.crowdedDb) with
     | (Ok resource, _) => resource
     | (Rejected _, _) => None
     end) = Some (Sproc.Token 1000).
Proof. vm_compute. reflexivity. Qed.

End FetchClaims.


(** * Further properties of the sampling procedure *)

Section ScanInvariants.

Import Sproc.

Variable host : Host.
Variable docs : list Theme.
Variable rnd : Q.

Local Abbreviation M := (matching docs).

(** Every returning invocation ends in [setBody]: the body is the one built
    from the final accumulator. *)
Lemma tryQuery_sets_body : forall budget st tok st',
  tryQuery host docs rnd budget st tok = Returned st' ->
  exists tok', st' = setBody rnd {| result := result st'; responseBody := None |} tok'.
Proof.
  induction budget as [|budget IH]; intros st tok st' H; [discriminate|].
  rewrite tryQuery_step in H.
  destruct (maxResult <=? List.length (result st)).
  { injection H as <-. now exists tok. }
  destruct (query host docs _) as [|[e|] docFeed next].
  - injection H as <-. now exists tok.
  - discriminate.
  - unfold onReadDocuments in H. destruct (truthy next).
    + eapply IH. exact H.
    + injection H as <-. now exists Null.
Qed.

(** The page delivered at a cursor, and what follows it. *)
Lemma page_then_rest (o k : nat) :
  firstn k (skipn o M) ++ skipn (o + List.length (firstn k (skipn o M))) M = skipn o M.
Proof.
  rewrite skipn_plus.
  rewrite <- (firstn_own_length (skipn o M) k) at 1.
  apply firstn_skipn.
Qed.

(** Whatever the server decides and whatever token the script is given,
    [tryQuery] either stops at once (the cap is reached or the request is
    refused), handing back the token it was given with nothing added, or it
    hands back a token that marks the end of what it added. *)
Lemma tryQuery_token : forall budget st tok st',
  tryQuery host docs rnd budget st tok = Returned st' ->
  exists b,
    responseBody st' = Some b /\
    ((continuationToken b = tok /\ result st' = result st /\
      (maxResult <= List.length (result st) \/ accepts host (cursor_of tok) = false))
     \/
     match continuationToken b with
     | Null => result st' = result st ++ skipn (cursor_of tok) M
     | Token o' =>
         cursor_of tok <= o' /\
         result st' = result st ++ firstn (o' - cursor_of tok) (skipn (cursor_of tok) M)
     | Undefined => False
     end).
Proof.
  induction budget as [|budget IH]; intros st tok st' H; [discriminate|].
  rewrite tryQuery_step in H.
  destruct (Nat.leb_spec maxResult (List.length (result st))) as [Hcap|Hroom].
  { injection H as <-. eexists. split; [reflexivity|]. left.
    cbn [continuationToken setBody result]. repeat split. now left. }
  rewrite query_is_filtered in H. unfold serve in H. cbn [continuation pageSize] in H.
  destruct (accepts host (cursor_of tok)) eqn:Hacc; cbn [negb] in H.
  2:{ injection H as <-. eexists. split; [reflexivity|]. left.
      cbn [continuationToken setBody result]. repeat split. now right. }
  destruct (readError host (cursor_of tok)); [discriminate|].
  unfold onReadDocuments in H.
  set (o := cursor_of tok) in *.
  set (k := Nat.min maxResult (pageFill host o)) in *.
  destruct (o + List.length (firstn k (skipn o M)) <? List.length M) eqn:Hnext;
    cbn [truthy] in H.
  - apply IH in H. destruct H as [b [Hb Hcase]].
    exists b. split; [exact Hb|]. right.
    cbn [cursor_of result] in Hcase.
    destruct Hcase as [[Htok [Hres _]] | Hcase].
    + rewrite Htok. split; [lia|]. rewrite Hres. f_equal.
      replace (o + List.length (firstn k (skipn o M)) - o)
        with (List.length (firstn k (skipn o M))) by lia.
      symmetry. apply firstn_own_length.
    + destruct (continuationToken b) as [| |o'].
      * contradiction.
      * rewrite Hcase, <- app_assoc. f_equal. apply page_then_rest.
      * destruct Hcase as [Hle Hres]. split; [lia|].
        rewrite Hres, <- app_assoc. f_equal.
        rewrite skipn_plus, firstn_next_page. f_equal. lia.
  - injection H as <-. eexists. split; [reflexivity|]. right.
    cbn [continuationToken setBody result]. f_equal.
    apply last_page. now apply Nat.ltb_ge.
Qed.

(** The cap is tested between pages only: the accumulator may pass
    [maxResult], by less than one page. *)
Lemma tryQuery_bound : forall budget st tok st',
  tryQuery host docs rnd budget st tok = Returned st' ->
  List.length (result st') <= Nat.max (List.length (result st)) (maxResult - 1 + maxResult).
Proof.
  induction budget as [|budget IH]; intros st tok st' H; [discriminate|].
  rewrite tryQuery_step in H.
  destruct (Nat.leb_spec maxResult (List.length (result st))) as [Hcap|Hroom].
  { injection H as <-. cbn [setBody result]. lia. }
  rewrite query_is_filtered in H. unfold serve in H. cbn [continuation pageSize] in H.
  destruct (accepts host (cursor_of tok)); cbn [negb] in H.
  2:{ injection H as <-. cbn [setBody result]. lia. }
  destruct (readError host (cursor_of tok)); [discriminate|].
  unfold onReadDocuments in H.
  set (page := firstn (Nat.min maxResult (pageFill host (cursor_of tok)))
                 (skipn (cursor_of tok) M)) in *.
  assert (Hpage : List.length page <= maxResult).
  { subst page. rewrite length_firstn. lia. }
  destruct (truthy _).
  - apply IH in H. cbn [result] in H. rewrite length_app in H. lia.
  - injection H as <-. cbn [setBody result]. rewrite length_app. lia.
Qed.

(** On a server that never answers with an empty page while items remain,
    the recursion budget is not exhausted once it exceeds the room left in
    the accumulator. *)
Lemma tryQuery_within_budget :
  progresses host ->
  forall budget st tok,
    maxResult - List.length (result st) < budget ->
    tryQuery host docs rnd budget st tok <> OutOfFuel.
Proof.
  intros Hprog.
  induction budget as [|budget IH]; intros st tok Hbudget; [lia|].
  rewrite tryQuery_step.
  destruct (Nat.leb_spec maxResult (List.length (result st))) as [Hcap|Hroom];
    [discriminate|].
  rewrite query_is_filtered. unfold serve. cbn [continuation pageSize].
  destruct (accepts host (cursor_of tok)); cbn [negb]; [|discriminate].
  destruct (readError host (cursor_of tok)); [discriminate|].
  unfold onReadDocuments.
  set (o := cursor_of tok).
  set (page := firstn (Nat.min maxResult (pageFill host o)) (skipn o M)).
  destruct (o + List.length page <? List.length M) eqn:Hnext; cbn [truthy];
    [|discriminate].
  apply Nat.ltb_lt in Hnext.
  assert (Hpage : 1 <= List.length page).
  { subst page. rewrite length_firstn, length_skipn.
    specialize (Hprog o). unfold maxResult. lia. }
  apply IH. cbn [result]. rewrite length_app. lia.
Qed.


End ScanInvariants.

Section ScanProperties.

Import Sproc.

(** X1.  [getRandomInt(min, max)] stays within [min .. max] for integers
    [min <= max] and any draw in [0,1). *)
Theorem getRandomInt_within (rnd : Q) (min max : Z) :
  (0 <= rnd)%Q -> (rnd < 1)%Q -> (min <= max)%Z ->
  (min <= getRandomInt rnd min max <= max)%Z.
Proof.
  intros H0 H1 Hle.
  assert (Hshift : getRandomInt rnd min max
                   = (getRandomInt rnd 0 ((max - min + 1) - 1) + min)%Z).
  { unfold getRandomInt.
    replace (max - min + 1 - 1 - 0 + 1)%Z with (max - min + 1)%Z by lia. lia. }
  pose proof (getRandomInt_in_range rnd (max - min + 1) H0 H1) as Hrange.
  rewrite Hshift. specialize (Hrange ltac:(lia)). lia.
Qed.

Lemma getRandomInt_within_witness :
  (3 <= getRandomInt (7 # 10) 3 12 <= 12)%Z.
Proof.
  apply (getRandomInt_within (7 # 10) 3 12).
  - unfold Qle. simpl. lia.
  - reflexivity.
  - lia.
Defined.

(** X2.  Whatever the server decides (refusals, short pages) and whatever
    token the invocation is started with, a returning invocation either was
    refused on its first request, and then hands back the very token it was
    given with nothing accumulated, or hands back a token that marks exactly
    the end of what it accumulated: with a cursor [o'] the accumulator is
    the stretch of the stream from the start cursor to [o'], with [null] it
    is everything from the start cursor on.  [undefined] comes back in the
    first case only. *)
Theorem token_marks_accumulated (host : Host) (docs : list Theme) (rnd : Q)
    (budget : nat) (tok : Continuation) (st : State) :
  getRandomTheme host docs rnd budget tok = Returned st ->
  exists b,
    responseBody st = Some b /\
    ((continuationToken b = tok /\ result st = [] /\
      accepts host (cursor_of tok) = false)
     \/
     match continuationToken b with
     | Null => result st = skipn (cursor_of tok) (matching docs)
     | Token o' =>
         cursor_of tok <= o' /\
         result st = firstn (o' - cursor_of tok) (skipn (cursor_of tok) (matching docs))
     | Undefined => False
     end).
Proof.
  intros Hrun. unfold getRandomTheme in Hrun.
  apply tryQuery_token in Hrun. destruct Hrun as [b [Hb Hcase]].
  exists b. split; [exact Hb|]. cbn [result app List.length] in Hcase.
  destruct Hcase as [[Htok [Hres [Hcap|Href]]] | Hmark].
  - unfold maxResult in Hcap. lia.
  - left. now repeat split.
  - right. exact Hmark.
Qed.

Lemma token_marks_accumulated_witness :
  exists b,
    responseBody
      (match getRandomTheme Sample.shortHost Sample.manyThemes (1 # 2) 5 Undefined with
       | Returned st => st
       | _ => {| result := []; responseBody := None |}
       end) = Some b /\
    ((continuationToken b = Undefined /\
      result
        (match getRandomTheme Sample.shortHost Sample.manyThemes (1 # 2) 5 Undefined with
         | Returned st => st
         | _ => {| result := []; responseBody := None |}
         end) = [] /\
      accepts Sample.shortHost (cursor_of Undefined) = false)
     \/
     match continuationToken b with
     | Null =>
         result
           (match getRandomTheme Sample.shortHost Sample.manyThemes (1 # 2) 5 Undefined with
            | Returned st => st
            | _ => {| result := []; responseBody := None |}
            end) = skipn (cursor_of Undefined) (matching Sample.manyThemes)
     | Token o' =>
         cursor_of Undefined <= o' /\
         result
           (match getRandomTheme Sample.shortHost Sample.manyThemes (1 # 2) 5 Undefined with
            | Returned st => st
            | _ => {| result := []; responseBody := None |}
            end)
         = firstn (o' - cursor_of Undefined)
             (skipn (cursor_of Undefined) (matching Sample.manyThemes))
     | Undefined => False
     end).
Proof.
  apply (token_marks_accumulated Sample.shortHost Sample.manyThemes (1 # 2) 5 Undefined).
  vm_compute. reflexivity.
Defined.

(** Started with [null] and refused at once, the invocation hands [null]
    back although nothing was read: the first case of the alternative. *)
Example refused_null_start_hands_null_back :
  getRandomTheme Sample.busyHost Sample.threeThemes (1 # 2) 5 Null =
    Returned {| result := [];
                responseBody := Some {| randomTheme := None;
                                        continuationToken := Null |} |}.
Proof. reflexivity. Qed.

(** A resumed scan that ends has run at least one invocation. *)
Lemma reinvoke_nonempty (hosts : nat -> Host) (docs : list Theme) (rnds : nat -> Q)
    (budget rounds n : nat) (tok : Continuation) (sts : list State) :
  reinvoke hosts docs rnds budget rounds n tok = Some sts -> sts <> [].
Proof.
  destruct rounds as [|r]; [discriminate|]. cbn [reinvoke].
  destruct (getRandomTheme (hosts n) docs (rnds n) budget tok) as [st| |];
    try discriminate.
  destruct (responseBody st) as [b|]; try discriminate.
  destruct (truthy (continuationToken b)).
  - destruct (reinvoke hosts docs rnds budget r (S n) (continuationToken b));
      [|discriminate].
    intros H. injection H as <-. discriminate.
  - intros H. injection H as <-. discriminate.
Qed.

(** X3.  Resumption loses nothing and repeats nothing, however the server
    behaves from one invocation to the next (a request refused in one
    invocation and accepted in a later one included): when a scan started
    with [undefined] or with a cursor, and resumed with each returned token,
    ends with the script setting a [null] token, the accumulators of the
    successive invocations, put end to end, are exactly the stream from the
    first cursor on.  (Started with [null] the property fails: a refused
    first request hands [null] back with nothing read.) *)
Theorem resumption_loses_nothing (hosts : nat -> Host) (docs : list Theme)
    (rnds : nat -> Q) (budget : nat) :
  forall (rounds n : nat) (tok : Continuation) (sts : list State),
    tok <> Null ->
    reinvoke hosts docs rnds budget rounds n tok = Some sts ->
    final_token sts = Some Null ->
    List.concat (map result sts) = skipn (cursor_of tok) (matching docs).
Proof.
  induction rounds as [|r IH]; intros n tok sts Htok Hrun Hfin; [discriminate|].
  cbn [reinvoke] in Hrun.
  destruct (getRandomTheme (hosts n) docs (rnds n) budget tok) as [st| |] eqn:Hinv;
    try discriminate.
  destruct (tryQuery_token (hosts n) docs (rnds n) budget _ tok st Hinv)
    as [b [Hb Hcase]].
  rewrite Hb in Hrun. cbn [result app] in Hcase.
  assert (Hmark : match continuationToken b with
                  | Null => result st = skipn (cursor_of tok) (matching docs)
                  | Token o' =>
                      cursor_of tok <= o' /\
                      result st = firstn (o' - cursor_of tok)
                                    (skipn (cursor_of tok) (matching docs))
                  | Undefined => True
                  end).
  { destruct Hcase as [[Hsame [Hres _]] | Hmark].
    - rewrite Hsame. destruct tok as [| |o]; [exact I | contradiction |].
      cbn [cursor_of]. split; [lia|]. rewrite Nat.sub_diag. exact Hres.
    - destruct (continuationToken b); [contradiction | exact Hmark | exact Hmark]. }
  destruct (continuationToken b) as [| |o'] eqn:Hct; cbn [truthy] in Hrun.
  - injection Hrun as <-. unfold final_token in Hfin. cbn [last] in Hfin.
    rewrite Hb in Hfin. cbn [option_map] in Hfin. congruence.
  - injection Hrun as <-. cbn [map List.concat]. now rewrite app_nil_r.
  - destruct (reinvoke hosts docs rnds budget r (S n) (Token o')) as [rest|] eqn:Hrest;
      [|discriminate].
    injection Hrun as <-.
    pose proof (reinvoke_nonempty _ _ _ _ _ _ _ _ Hrest) as Hne.
    assert (Hfin' : final_token rest = Some Null).
    { unfold final_token in *. destruct rest; [contradiction | exact Hfin]. }
    cbn [map List.concat].
    rewrite (IH (S n) (Token o') rest) by (try discriminate; assumption).
    destruct Hmark as [Hle Hres]. rewrite Hres. cbn [cursor_of].
    replace o' with (cursor_of tok + (o' - cursor_of tok)) at 2 by lia.
    rewrite skipn_plus. apply firstn_skipn.
Qed.

Lemma resumption_loses_nothing_witness :
  List.concat (map result
    (match reinvoke Sample.hiccup Sample.manyThemes (fun _ => 1 # 2) 5 4 0 Undefined with
     | Some sts => sts
     | None => []
     end))
  = skipn (cursor_of Undefined) (matching Sample.manyThemes).
Proof.
  apply (resumption_loses_nothing Sample.hiccup Sample.manyThemes (fun _ => 1 # 2) 5
           4 0 Undefined).
  - discriminate.
  - vm_compute. reflexivity.
  - vm_compute. reflexivity.
Defined.

(** In that scan the second invocation is refused and hands its cursor back
    with nothing read; the third resumes from the same cursor, and the four
    accumulators hold 1000, 0, 1000 and 500 elements. *)
Example hiccup_scan_resumes_after_refusal :
  option_map (map (fun st => (List.length (result st),
                              option_map continuationToken (responseBody st))))
    (reinvoke Sample.hiccup Sample.manyThemes (fun _ => 1 # 2) 5 4 0 Undefined)
  = Some [(1000, Some (Token 1000)); (0, Some (Token 1000));
          (1000, Some (Token 2000)); (500, Some Null)].
Proof. vm_compute. reflexivity. Qed.

(** Started with [null], a refused first request ends the scan with a
    [null] token and nothing accumulated although two documents match. *)
Example resumption_from_null_can_lose_everything :
  reinvoke (fun _ => Sample.busyHost) Sample.threeThemes (fun _ => 1 # 2) 5 4 0 Null
  = Some [{| result := [];
             responseBody := Some {| randomTheme := None;
                                     continuationToken := Null |} |}].
Proof. reflexivity. Qed.

(** X4.  The cap is tested between pages only, so whatever the server
    decides an invocation accumulates fewer than two pages' worth of items:
    at most [maxResult - 1 + maxResult]. *)
Theorem accumulator_below_two_pages (host : Host) (docs : list Theme) (rnd : Q)
    (budget : nat) (tok : Continuation) (st : State) :
  getRandomTheme host docs rnd budget tok = Returned st ->
  List.length (result st) <= maxResult - 1 + maxResult.
Proof.
  intros Hrun. unfold getRandomTheme in Hrun.
  apply tryQuery_bound in Hrun. cbn [result List.length] in Hrun. lia.
Qed.

Lemma accumulator_below_two_pages_witness :
  List.length
    (result (match getRandomTheme Sample.shortHost Sample.manyThemes (1 # 2) 5 Undefined with
             | Returned st => st
             | _ => {| result := []; responseBody := None |}
             end)) <= maxResult - 1 + maxResult.
Proof.
  apply (accumulator_below_two_pages Sample.shortHost Sample.manyThemes (1 # 2) 5 Undefined).
  vm_compute. reflexivity.
Defined.

(** The cap is indeed passed: pages of 999 items bring the accumulator to
    1998 before the test stops the scan. *)
Example short_pages_pass_the_cap :
  option_map (fun st => List.length (result st))
    (match getRandomTheme Sample.shortHost Sample.manyThemes (1 # 2) 5 Undefined with
     | Returned st => Some st
     | _ => None
     end) = Some 1998.
Proof. vm_compute. reflexivity. Qed.

(** X5.  On a server that never answers with an empty page while items
    remain, an invocation issues at most [maxResult] page requests: with a
    budget above [maxResult] it ends by returning or by throwing. *)
Theorem invocation_ends (host : Host) (docs : list Theme) (rnd : Q)
    (budget : nat) (tok : Continuation) :
  progresses host ->
  maxResult < budget ->
  (exists st, getRandomTheme host docs rnd budget tok = Returned st)
  \/ (exists msg, getRandomTheme host docs rnd budget tok = Threw msg).
Proof.
  intros Hprog Hbudget.
  pose proof (tryQuery_within_budget host docs rnd Hprog budget
                {| result := []; responseBody := None |} tok) as Hend.
  unfold getRandomTheme.
  destruct (tryQuery host docs rnd budget _ tok) as [st|msg|].
  - left. now exists st.
  - right. now exists msg.
  - exfalso. apply Hend; [cbn [result List.length]; lia | reflexivity].
Qed.

Lemma invocation_ends_witness :
  (exists st, getRandomTheme Sample.shortHost Sample.manyThemes (1 # 2) 1001 Undefined
              = Returned st)
  \/ (exists msg, getRandomTheme Sample.shortHost Sample.manyThemes (1 # 2) 1001 Undefined
                  = Threw msg).
Proof.
  apply (invocation_ends Sample.shortHost Sample.manyThemes (1 # 2) 1001 Undefined).
  - intros o. simpl. lia.
  - unfold maxResult. lia.
Defined.



(** X7.  Whatever the server decides, the body of a returning invocation
    carries [randomTheme: undefined] exactly when nothing was accumulated;
    otherwise [randomTheme] is one of the accumulated elements, hence the id
    of a theme of the container whose [imageCaptured] is [true]. *)
Theorem chosen_from_accumulator (host : Host) (docs : list Theme) (rnd : Q)
    (budget : nat) (tok : Continuation) (st : State) :
  (0 <= rnd)%Q -> (rnd < 1)%Q ->
  getRandomTheme host docs rnd budget tok = Returned st ->
  exists b,
    responseBody st = Some b /\
    ((result st = [] /\ randomTheme b = None)
     \/ (exists chosen, randomTheme b = Some chosen /\ In chosen (result st) /\
                        captured_in docs chosen)).
Proof.
  intros H0 H1 Hrun. unfold getRandomTheme in Hrun.
  destruct (tryQuery_sets_body host docs rnd _ _ _ _ Hrun) as [tok' Hset].
  destruct (tryQuery_segment host docs rnd _ _ _ _ Hrun) as [n Hseg].
  cbn [result app] in Hseg.
  destruct (result st) as [|x l] eqn:Hres.
  - rewrite Hset. cbn [setBody result responseBody].
    eexists. split; [reflexivity|]. left. split; [reflexivity|].
    cbn [randomTheme List.length]. change (Z.of_nat 0 - 1)%Z with (-1)%Z.
    now rewrite getRandomInt_empty_range.
  - destruct (setBody_chooses rnd {| result := x :: l; responseBody := None |} tok' H0 H1)
      as [chosen [Hin Hbody]]; [discriminate|].
    cbn [result] in *. rewrite Hset, Hbody. cbn [responseBody].
    eexists. split; [reflexivity|]. right. exists chosen. cbn [randomTheme].
    repeat split; try assumption.
    assert (Hall : Forall (captured_in docs) (x :: l)).
    { rewrite Hseg. apply segment_captured. }
    exact (proj1 (Forall_forall _ _) Hall chosen Hin).
Qed.

Lemma chosen_from_accumulator_witness :
  exists b,
    responseBody
      (match getRandomTheme Sample.shortHost Sample.threeThemes (1 # 2) 5 Undefined with
       | Returned st => st
       | _ => {| result := []; responseBody := None |}
       end) = Some b /\
    ((result
        (match getRandomTheme Sample.shortHost Sample.threeThemes (1 # 2) 5 Undefined with
         | Returned st => st
         | _ => {| result := []; responseBody := None |}
         end) = [] /\ randomTheme b = None)
     \/ (exists chosen,
           randomTheme b = Some chosen /\
           In chosen
             (result
                (match getRandomTheme Sample.shortHost Sample.threeThemes (1 # 2) 5 Undefined with
                 | Returned st => st
                 | _ => {| result := []; responseBody := None |}
                 end)) /\
           captured_in Sample.threeThemes chosen)).
Proof.
  apply (chosen_from_accumulator Sample.shortHost Sample.threeThemes (1 # 2) 5 Undefined).
  - unfold Qle. simpl. lia.
  - reflexivity.
  - vm_compute. reflexivity.
Defined.

End ScanProperties.

(** * Further properties of the handlers *)

Section HandlerSteps.

Import ThemeExtensionFetch.

Variable env : Env.

(** A property of a sequence follows from its two halves. *)
Lemma bind_post {A B} (m : Async A) (k : A -> Async B) (s : Sys)
    (P : Settled B * Sys -> Prop) :
  (forall e s1, m s = (Rejected e, s1) -> P (Rejected e, s1)) ->
  (forall a s1, m s = (Ok a, s1) -> P (k a s1)) ->
  P (bind m k s).
Proof.
  intros Hrej Hok. unfold bind. destruct (m s) as [[a|e] s1]; auto.
Qed.

Lemma createIfNotExists_db (ev : Event) (s : Sys) :
  db (snd (createIfNotExists env ev s)) = db s.
Proof.
  unfold createIfNotExists, remote. now destruct (fault env ev).
Qed.

Lemma find_app_last {A} (f : A -> bool) (l : list A) (d : A) :
  find f l = None -> f d = true -> find f (l ++ [d]) = Some d.
Proof.
  induction l as [|x l IH]; simpl; intros Hnone Hd.
  - now rewrite Hd.
  - destruct (f x); [discriminate | now apply IH].
Qed.

(** The installer changes nothing but the scripts, and those by the one
    definition at most. *)
Lemma getStoredProcedure_db (sprocId : string) (s : Sys) :
  documents_kept sprocId (db s) (db (snd (getStoredProcedure env sprocId s))).
Proof.
  unfold getStoredProcedure, readAll, create, bind, remote, documents_kept.
  destruct (fault env StoredProceduresReadAll); [cbn; auto|].
  cbn [fst snd db ctx trace].
  destruct (found sprocId (scripts (db s))); [cbn; auto|].
  cbn [sproc_id].
  destruct (fault env (StoredProceduresCreate sprocId)); [cbn; auto|].
  cbn [fst snd]. destruct (createStatus env =? 200); cbn; auto.
Qed.

(** With no rejected call and the procedure obtainable, the installer hands
    back the handle of that name, and the procedure is then installed. *)
Lemma getStoredProcedure_obtains (sprocId : string) (s : Sys) :
  noFaults env -> obtainable env sprocId (scripts (db s)) ->
  exists s',
    getStoredProcedure env sprocId s = (Ok (Some {| handle_id := sprocId |}), s') /\
    ctx s' = ctx s /\ themes (db s') = themes (db s) /\
    extensions (db s') = extensions (db s) /\
    ((found sprocId (scripts (db s)) = true /\ scripts (db s') = scripts (db s))
     \/ (found sprocId (scripts (db s)) = false /\
         scripts (db s') = scripts (db s)
                           ++ [{| sproc_id := sprocId; sproc_body := SamplingScript sprocId |}])).
Proof.
  intros Hnf Hob. unfold getStoredProcedure, readAll, create.
  rewrite (bind_ok _ _ _ _ _ (remote_ok env _ _ s (Hnf _))). cbn [fst snd].
  destruct (found sprocId (scripts (db s))) eqn:Hf.
  - eexists. split; [reflexivity|]. cbn. repeat split. now left.
  - destruct Hob as [Habs|H200]; [congruence|].
    cbn [sproc_id].
    rewrite (bind_ok _ _ _ _ _ (remote_ok env _ _ _ (Hnf _))). cbn [fst snd].
    rewrite H200. cbn [Nat.eqb].
    eexists. split; [reflexivity|]. cbn. repeat split. now right.
Qed.

(** Executing the sampling script runs the procedure body on the [themes]
    container. *)
Lemma execute_sampling (sprocId : string) (s : Sys) (def : StoredProcedureDefinition)
    (name : string) (param : Sproc.Continuation) (st : Sproc.State) :
  noFaults env ->
  find (fun d => String.eqb (sproc_id d) sprocId) (scripts (db s)) = Some def ->
  sproc_body def = SamplingScript name ->
  Sproc.getRandomTheme (host env) (themes (db s)) (rnd env) (fuel env) param
    = Sproc.Returned st ->
  execute env {| handle_id := sprocId |} param s =
    (Ok (Sproc.responseBody st),
     {| db := db s; ctx := ctx s;
        trace := trace s ++ [StoredProcedureExecute sprocId param] |}).
Proof.
  intros Hnf Hfind Hbody Hrun. unfold execute. cbn [handle_id].
  rewrite Hnf, Hfind. unfold runScript. now rewrite Hbody, Hrun.
Qed.

(** With no rejected call, a genuine obtainable procedure and a returning
    invocation, the prefix of the handler settles with the [randomTheme] of
    the body of that invocation. *)
Lemma sampleTheme_genuine (s : Sys) (st : Sproc.State) :
  noFaults env ->
  genuine "getRandomTheme" (scripts (db s)) ->
  obtainable env "getRandomTheme" (scripts (db s)) ->
  Sproc.getRandomTheme (host env) (themes (db s)) (rnd env) (fuel env) Sproc.Undefined
    = Sproc.Returned st ->
  exists b s',
    Sproc.responseBody st = Some b /\
    sampleTheme env s = (Ok (Sproc.randomTheme b), s') /\
    ctx s' = ctx s /\ themes (db s') = themes (db s) /\
    extensions (db s') = extensions (db s).
Proof.
  intros Hnf Hgen Hob Hrun.
  assert (Hbody : exists b, Sproc.responseBody st = Some b).
  { unfold Sproc.getRandomTheme in Hrun.
    destruct (tryQuery_sets_body _ _ _ _ _ _ _ Hrun) as [tok' ->].
    eexists. reflexivity. }
  destruct Hbody as [b Hb]. exists b.
  unfold sampleTheme, createIfNotExists.
  rewrite (bind_ok _ _ _ _ _ (remote_ok env _ _ s (Hnf _))).
  rewrite (bind_ok _ _ _ _ _ (remote_ok env _ _ _ (Hnf _))).
  rewrite (bind_ok _ _ _ _ _ (remote_ok env _ _ _ (Hnf _))).
  cbn [fst snd db ctx trace].
  match goal with
  | |- context [bind (getStoredProcedure env _) _ ?s3] =>
      destruct (getStoredProcedure_obtains "getRandomTheme" s3 Hnf Hob)
        as (s4 & Hget & Hc4 & Ht4 & He4 & Hscripts)
  end.
  rewrite (bind_ok _ _ _ _ _ Hget).
  cbn [db ctx] in *.
  assert (Hfind : exists def name,
    find (fun d => String.eqb (sproc_id d) "getRandomTheme") (scripts (db s4)) = Some def /\
    sproc_body def = SamplingScript name).
  { destruct Hscripts as [[Hf Hsame] | [Hf Hmore]].
    - rewrite Hsame. unfold found in Hf.
      destruct (find _ (scripts (db s))) as [def|] eqn:Hfd; [|discriminate].
      apply find_some in Hfd. destruct Hfd as [Hin Heq].
      apply String.eqb_eq in Heq.
      destruct (Hgen def Hin Heq) as [name Hname]. now exists def, name.
    - rewrite Hmore. unfold found in Hf.
      destruct (find _ (scripts (db s))) eqn:Hfd; [discriminate|].
      exists {| sproc_id := "getRandomTheme";
                sproc_body := SamplingScript "getRandomTheme" |}, "getRandomTheme".
      split; [|reflexivity].
      apply find_app_last; [exact Hfd | reflexivity]. }
  destruct Hfind as (def & name & Hfind & Hname).
  rewrite <- Ht4 in Hrun.
  rewrite (bind_ok _ _ _ _ _
             (execute_sampling "getRandomTheme" s4 def name Sproc.Undefined st
                Hnf Hfind Hname Hrun)).
  rewrite Hb. unfold member, ret.
  eexists. split; [reflexivity|]. split; [reflexivity|].
  cbn [ctx db]. now repeat split.
Qed.

(** With no rejected call and the theme found, the tail of the handler
    answers 200 with the first theme of that id and the first extension
    carrying its [extensionId], if any. *)
Lemma respond_resolves (item : Sproc.Item) (s : Sys) (t : Theme) (rest : list Theme) :
  noFaults env ->
  filter (fun c => String.eqb (theme_id c) (Sproc.item_id item)) (themes (db s)) = t :: rest ->
  respond env (Some item) s =
    (Ok tt,
     {| db := db s;
        ctx := {| res := Some {| status := 200;
                                 body := PairBody (Some t)
                                   (hd_error (filter (fun c => String.eqb (extensionId c)
                                                                 (theme_extensionId t))
                                                (extensions (db s)))) |};
                  logged := logged (ctx s) |};
        trace := (trace s ++ [ItemsQuery "themes" (Sproc.item_id item)])
                   ++ [ItemsQuery "extensions" (theme_extensionId t)] |}).
Proof.
  intros Hnf Hthemes.
  unfold respond, member, queryThemes, queryExtensions.
  rewrite (bind_ok (ret (Sproc.item_id item)) _ s s _ eq_refl).
  rewrite (bind_ok _ _ _ _ _ (remote_ok env _ _ s (Hnf _))). cbn [fst snd].
  rewrite Hthemes. cbn [hd_error].
  rewrite (bind_ok (ret (theme_extensionId t)) _ _ _ _ eq_refl).
  rewrite (bind_ok _ _ _ _ _ (remote_ok env _ _ _ (Hnf _))). cbn [fst snd db].
  reflexivity.
Qed.

(** The tail of the handler never logs, and leaves the context alone when
    it rejects. *)
Lemma respond_context (rt : option Sproc.Item) (s : Sys) :
  logged (ctx (snd (respond env rt s))) = logged (ctx s) /\
  (forall e, fst (respond env rt s) = Rejected e -> ctx (snd (respond env rt s)) = ctx s).
Proof.
  unfold respond, member, queryThemes, queryExtensions, bind, remote, set_res.
  destruct rt as [item|]; cbn [ret throw fst snd]; [|now split].
  destruct (fault env (ItemsQuery "themes" _)); cbn [fst snd db ctx trace]; [now split|].
  destruct (hd_error _) as [t|]; cbn [ret throw fst snd db ctx trace]; [|now split].
  destruct (fault env (ItemsQuery "extensions" _)); cbn [fst snd db ctx trace logged];
    [now split|].
  split; [reflexivity | discriminate].
Qed.

End HandlerSteps.

Section FetchProperties.

Import ThemeExtensionFetch.

(** The prefix of the handler leaves documents alone and adds at most the
    sampling definition to the scripts. *)
Lemma sampleTheme_db (env : Env) (s : Sys) :
  documents_kept "getRandomTheme" (db s) (db (snd (sampleTheme env s))).
Proof.
  assert (Hrefl : forall d, documents_kept "getRandomTheme" d d).
  { intros d. repeat split. now left. }
  unfold sampleTheme.
  apply bind_post; intros r1 s1 H1;
    pose proof (createIfNotExists_db env (DatabasesCreateIfNotExists "onlyThemesDb") s) as D1;
    rewrite H1 in D1; cbn [snd] in *; [rewrite D1; apply Hrefl|].
  apply bind_post; intros r2 s2 H2;
    pose proof (createIfNotExists_db env (ContainersCreateIfNotExists "themes") s1) as D2;
    rewrite H2 in D2; cbn [snd] in *; [rewrite D2, D1; apply Hrefl|].
  apply bind_post; intros r3 s3 H3;
    pose proof (createIfNotExists_db env (ContainersCreateIfNotExists "extensions") s2) as D3;
    rewrite H3 in D3; cbn [snd] in *; [rewrite D3, D2, D1; apply Hrefl|].
  assert (D : db s3 = db s) by congruence.
  apply bind_post; intros r4 s4 H4;
    pose proof (getStoredProcedure_db env "getRandomTheme" s3) as D4;
    rewrite H4, D in D4; cbn [snd] in *; [exact D4|].
  destruct r4 as [h|]; [|exact D4].
  apply bind_post; intros r5 s5 H5;
    destruct (execute_records env h Sproc.Undefined s4) as [_ [D5 _]];
    rewrite H5 in D5; cbn [snd] in *; [now rewrite D5|].
  unfold member. destruct r5; cbn [ret throw snd]; now rewrite D5.
Qed.

(** X8.  When the procedure is not installed and the store answers the
    creation with a status other than 200, the handler rejects with the
    string ['An error occurred while fetching the storedProcedure'] without
    executing anything or setting a response; the definition has been stored
    all the same, so the procedure is found from then on. *)
Theorem fetch_rejects_on_other_creation_status (env : Env) (userId : option string) (s : Sys) :
  noFaults env ->
  found "getRandomTheme" (scripts (db s)) = false ->
  createStatus env <> 200 ->
  httpTrigger env userId s =
    (Rejected (Thrown "An error occurred while fetching the storedProcedure"),
     {| db := {| themes := themes (db s);
                 scripts := scripts (db s)
                            ++ [{| sproc_id := "getRandomTheme";
                                   sproc_body := SamplingScript "getRandomTheme" |}];
                 extensions := extensions (db s) |};
        ctx := ctx s;
        trace := ((((trace s ++ [DatabasesCreateIfNotExists "onlyThemesDb"])
                      ++ [ContainersCreateIfNotExists "themes"])
                      ++ [ContainersCreateIfNotExists "extensions"])
                      ++ [StoredProceduresReadAll])
                      ++ [StoredProceduresCreate "getRandomTheme"] |})
  /\ found "getRandomTheme"
       (scripts (db (snd (httpTrigger env userId s)))) = true.
Proof.
  intros Hnf Hfound Hstatus.
  assert (Hrun : httpTrigger env userId s =
    (Rejected (Thrown "An error occurred while fetching the storedProcedure"),
     {| db := {| themes := themes (db s);
                 scripts := scripts (db s)
                            ++ [{| sproc_id := "getRandomTheme";
                                   sproc_body := SamplingScript "getRandomTheme" |}];
                 extensions := extensions (db s) |};
        ctx := ctx s;
        trace := ((((trace s ++ [DatabasesCreateIfNotExists "onlyThemesDb"])
                      ++ [ContainersCreateIfNotExists "themes"])
                      ++ [ContainersCreateIfNotExists "extensions"])
                      ++ [StoredProceduresReadAll])
                      ++ [StoredProceduresCreate "getRandomTheme"] |})).
  { unfold httpTrigger, sampleTheme, createIfNotExists, getStoredProcedure, readAll, create.
    apply bind_rejected.
    rewrite (bind_ok _ _ _ _ _ (remote_ok env _ _ s (Hnf _))).
    rewrite (bind_ok _ _ _ _ _ (remote_ok env _ _ _ (Hnf _))).
    rewrite (bind_ok _ _ _ _ _ (remote_ok env _ _ _ (Hnf _))).
    cbn [fst snd db ctx trace].
    erewrite bind_ok.
    2:{ rewrite (bind_ok _ _ _ _ _ (remote_ok env _ _ _ (Hnf _))).
        cbn [fst snd db]. rewrite Hfound. cbn [sproc_id].
        rewrite (bind_ok _ _ _ _ _ (remote_ok env _ _ _ (Hnf _))).
        cbn [fst snd db ctx trace].
        apply Nat.eqb_neq in Hstatus. rewrite Hstatus. reflexivity. }
    reflexivity. }
  split; [exact Hrun|].
  rewrite Hrun. cbn [snd db scripts].
  apply found_by_id. rewrite map_app. apply in_or_app. right. now left.
Qed.

Lemma fetch_rejects_on_other_creation_status_witness :
  httpTrigger (Sample.calm 201) None (Sample.fresh Sample.bareDb) =
    (Rejected (Thrown "An error occurred while fetching the storedProcedure"),
     {| db := {| themes := Sample.threeThemes;
                 scripts := [] ++ [Sample.samplingDefinition];
                 extensions := extensions Sample.bareDb |};
        ctx := {| res := None; logged := [] |};
        trace := (((([] ++ [DatabasesCreateIfNotExists "onlyThemesDb"])
                      ++ [ContainersCreateIfNotExists "themes"])
                      ++ [ContainersCreateIfNotExists "extensions"])
                      ++ [StoredProceduresReadAll])
                      ++ [StoredProceduresCreate "getRandomTheme"] |})
  /\ found "getRandomTheme"
       (scripts (db (snd (httpTrigger (Sample.calm 201) None (Sample.fresh Sample.bareDb)))))
     = true.
Proof.
  apply (fetch_rejects_on_other_creation_status (Sample.calm 201) None
           (Sample.fresh Sample.bareDb)).
  - intros ev. reflexivity.
  - reflexivity.
  - simpl. lia.
Defined.

(** X9.  In every run the handler leaves the theme and extension documents
    as they were, adds at most the one sampling definition to the scripts,
    logs nothing, and, when it rejects, leaves [context.res] as it found
    it. *)
Theorem fetch_footprint (env : Env) (userId : option string) (s : Sys) :
  documents_kept "getRandomTheme" (db s) (db (snd (httpTrigger env userId s)))
  /\ logged (ctx (snd (httpTrigger env userId s))) = logged (ctx s)
  /\ forall e, fst (httpTrigger env userId s) = Rejected e ->
               res (ctx (snd (httpTrigger env userId s))) = res (ctx s).
Proof.
  unfold httpTrigger, bind.
  pose proof (sampleTheme_db env s) as Hdb.
  destruct (sampleTheme_spec env s) as [Hctx _].
  destruct (sampleTheme env s) as [[rt|e0] s1]; cbn [fst snd] in *.
  - pose proof (respond_keeps_db env rt s1) as Hkeep.
    destruct (respond_context env rt s1) as [Hlog Hrej].
    destruct (respond env rt s1) as [r s2]; cbn [fst snd] in *.
    split; [now rewrite Hkeep|]. split; [congruence|].
    intros e He. rewrite (Hrej e He). congruence.
  - split; [exact Hdb|]. split; [congruence|]. intros e _. congruence.
Qed.

(** The sampling procedure over a container without captured theme hands
    back no theme, whether the request is accepted or refused. *)
Lemma no_match_no_theme (h : Sproc.Host) (docs : list Theme) (r : Q) (budget : nat) :
  Sproc.matching docs = [] ->
  Sproc.readError h 0 = None ->
  exists st b,
    Sproc.getRandomTheme h docs r (S budget) Sproc.Undefined = Sproc.Returned st /\
    Sproc.responseBody st = Some b /\
    Sproc.randomTheme b = None.
Proof.
  intros Hnone Herr. unfold Sproc.getRandomTheme. rewrite tryQuery_step.
  cbn [Sproc.result List.length].
  replace (Sproc.maxResult <=? 0) with false by reflexivity.
  rewrite query_is_filtered. unfold Sproc.serve.
  cbn [Sproc.continuation Sproc.pageSize Sproc.cursor_of].
  rewrite Herr, Hnone.
  destruct (Sproc.accepts h 0); cbn [negb].
  - rewrite firstn_nil. cbn [skipn List.length Nat.add Nat.ltb Nat.leb].
    unfold Sproc.onReadDocuments. cbn [Sproc.truthy Sproc.result app].
    do 2 eexists. split; [reflexivity|]. split; [reflexivity|].
    cbn [Sproc.randomTheme Sproc.result List.length].
    change (Z.of_nat 0 - 1)%Z with (-1)%Z. now rewrite getRandomInt_empty_range.
  - do 2 eexists. split; [reflexivity|]. split; [reflexivity|].
    cbn [Sproc.setBody Sproc.responseBody Sproc.randomTheme Sproc.result List.length].
    change (Z.of_nat 0 - 1)%Z with (-1)%Z. now rewrite getRandomInt_empty_range.
Qed.

(** X10.  When no theme of the container has its image captured, the
    request is rejected with a TypeError on [randomTheme.id] and no response
    is set, even though the store answered every call. *)
Theorem fetch_without_captured_theme_rejects (env : Env) (userId : option string) (s : Sys) :
  noFaults env ->
  genuine "getRandomTheme" (scripts (db s)) ->
  obtainable env "getRandomTheme" (scripts (db s)) ->
  Sproc.readError (host env) 0 = None ->
  0 < fuel env ->
  Sproc.matching (themes (db s)) = [] ->
  fst (httpTrigger env userId s)
    = Rejected (TypeError "Cannot read properties of undefined (reading 'id')")
  /\ ctx (snd (httpTrigger env userId s)) = ctx s.
Proof.
  intros Hnf Hgen Hob Herr Hfuel Hnone.
  destruct (fuel env) as [|budget] eqn:Hbudget; [lia|].
  destruct (no_match_no_theme (host env) (themes (db s)) (rnd env) budget Hnone Herr)
    as (st & b & Hrun & Hb & Hrt).
  rewrite <- Hbudget in Hrun.
  destruct (sampleTheme_genuine env s st Hnf Hgen Hob Hrun)
    as (b' & s' & Hb' & Hsample & Hctx & _).
  assert (b' = b) by congruence. subst b'.
  unfold httpTrigger. rewrite (bind_ok _ _ _ _ _ Hsample), Hrt.
  unfold respond, member, bind, throw. cbn [fst snd]. now split.
Qed.

Lemma fetch_without_captured_theme_rejects_witness :
  fst (httpTrigger (Sample.calm 200) None (Sample.fresh Sample.dullDb))
    = Rejected (TypeError "Cannot read properties of undefined (reading 'id')")
  /\ ctx (snd (httpTrigger (Sample.calm 200) None (Sample.fresh Sample.dullDb)))
     = {| res := None; logged := [] |}.
Proof.
  apply (fetch_without_captured_theme_rejects (Sample.calm 200) None
           (Sample.fresh Sample.dullDb)).
  - intros ev. reflexivity.
  - intros d [<-|[]] _. now exists "getRandomTheme".
  - left. reflexivity.
  - reflexivity.
  - simpl. lia.
  - reflexivity.
Defined.

End FetchProperties.

Section ServedTheme.

Import ThemeExtensionFetch.

Lemma NoDup_map_inj {A B} (f : A -> B) (l : list A) (a b : A) :
  NoDup (map f l) -> In a l -> In b l -> f a = f b -> a = b.
Proof.
  induction l as [|x l IH]; simpl; intros Hnd Ha Hb Hf; [contradiction|].
  inversion Hnd as [|y l' Hnotin Hnd']; subst.
  destruct Ha as [<-|Ha], Hb as [<-|Hb]; try reflexivity.
  - exfalso. apply Hnotin. rewrite Hf. now apply in_map.
  - exfalso. apply Hnotin. rewrite <- Hf. now apply in_map.
  - now apply IH.
Qed.

(** X11.  The request served: with every call answered, the genuine
    procedure obtainable, a cooperative server that makes progress, themes
    with distinct ids and between 1 and 999 of them captured, the handler
    settles with status 200, a theme of the container whose [imageCaptured]
    is [true], and the first extension that carries this theme's
    [extensionId] ([undefined] when there is none). *)
Theorem fetch_serves_captured_theme (env : Env) (userId : option string) (s : Sys) :
  noFaults env ->
  genuine "getRandomTheme" (scripts (db s)) ->
  obtainable env "getRandomTheme" (scripts (db s)) ->
  Sproc.cooperative (host env) -> Sproc.progresses (host env) ->
  (0 <= rnd env)%Q -> (rnd env < 1)%Q ->
  0 < List.length (Sproc.matching (themes (db s))) ->
  List.length (Sproc.matching (themes (db s))) < Sproc.maxResult ->
  List.length (Sproc.matching (themes (db s))) < fuel env ->
  NoDup (map theme_id (themes (db s))) ->
  exists t,
    In t (themes (db s)) /\ imageCaptured t = true /\
    fst (httpTrigger env userId s) = Ok tt /\
    res (ctx (snd (httpTrigger env userId s))) =
      Some {| status := 200;
              body := PairBody (Some t)
                        (hd_error (filter (fun c => String.eqb (extensionId c)
                                                      (theme_extensionId t))
                                     (extensions (db s)))) |}.
Proof.
  intros Hnf Hgen Hob Hco Hprog H0 H1 Hne Hcap Hbudget Hnd.
  pose proof (tryQuery_exhausts (host env) (themes (db s)) (rnd env) Hco Hprog Hcap
                (fuel env) {| Sproc.result := []; Sproc.responseBody := None |}
                Sproc.Undefined eq_refl) as Hrun.
  cbn [Sproc.cursor_of Sproc.responseBody] in Hrun.
  specialize (Hrun ltac:(lia) ltac:(lia)).
  destruct (setBody_chooses (rnd env)
              {| Sproc.result := Sproc.matching (themes (db s));
                 Sproc.responseBody := None |} Sproc.Null H0 H1)
    as [chosen [Hin Hset]].
  { cbn [Sproc.result]. destruct (Sproc.matching (themes (db s)));
      [simpl in Hne; lia | discriminate]. }
  cbn [Sproc.result] in Hin, Hset.
  destruct (sampleTheme_genuine env s _ Hnf Hgen Hob Hrun)
    as (b & s' & Hb & Hsample & Hctx & Hthemes & Hexts).
  rewrite Hset in Hb. cbn [Sproc.responseBody] in Hb. injection Hb as <-.
  cbn [Sproc.randomTheme] in Hsample.
  destruct (proj1 (Forall_forall _ _) (matching_captured (themes (db s))) chosen Hin)
    as (d & Hd & Hcaptured & ->).
  assert (Hfound : In d (filter (fun c => String.eqb (theme_id c) (theme_id d))
                           (themes (db s')))).
  { rewrite Hthemes. apply filter_In. split; [exact Hd | apply String.eqb_refl]. }
  destruct (filter (fun c => String.eqb (theme_id c) (theme_id d)) (themes (db s')))
    as [|t rest] eqn:Hfilter; [contradiction|].
  assert (Ht : In t (themes (db s)) /\ theme_id t = theme_id d).
  { assert (Hint : In t (filter (fun c => String.eqb (theme_id c) (theme_id d))
                           (themes (db s')))) by (rewrite Hfilter; now left).
    apply filter_In in Hint. destruct Hint as [Hint Heq].
    rewrite Hthemes in Hint. apply String.eqb_eq in Heq. now split. }
  destruct Ht as [Hint Hid].
  assert (t = d) by (eapply NoDup_map_inj; eassumption). subst t.
  exists d. split; [exact Hd|]. split; [exact Hcaptured|].
  unfold httpTrigger. rewrite (bind_ok _ _ _ _ _ Hsample).
  rewrite (respond_resolves env (Sproc.Projected (theme_id d)) s' d rest Hnf Hfilter).
  cbn [fst snd ctx res]. rewrite Hexts. now split.
Qed.

Lemma fetch_serves_captured_theme_witness :
  exists t,
    In t Sample.threeThemes /\ imageCaptured t = true /\
    fst (httpTrigger (Sample.calm 200) None (Sample.fresh Sample.bareDb)) = Ok tt /\
    res (ctx (snd (httpTrigger (Sample.calm 200) None (Sample.fresh Sample.bareDb)))) =
      Some {| status := 200;
              body := PairBody (Some t)
                        (hd_error (filter (fun c => String.eqb (extensionId c)
                                                      (theme_extensionId t))
                                     (extensions Sample.bareDb))) |}.
Proof.
  apply (fetch_serves_captured_theme (Sample.calm 200) None (Sample.fresh Sample.bareDb)).
  - intros ev. reflexivity.
  - intros d [].
  - right. reflexivity.
  - split; intros o; reflexivity.
  - intros o. simpl. lia.
  - unfold Qle. simpl. lia.
  - reflexivity.
  - simpl. lia.
  - unfold Sproc.maxResult. simpl. lia.
  - simpl. lia.
  - simpl. repeat constructor; simpl; intuition discriminate.
Defined.

(** The run behind the witness: the procedure is installed on the way, the
    second captured theme is drawn and its extension is found. *)
Example first_request_on_a_bare_store :
  res (ctx (snd (httpTrigger (Sample.calm 200) None (Sample.fresh Sample.bareDb)))) =
    Some {| status := 200;
            body := PairBody (Some (mkTheme "c" "e2" true))
                             (Some (mkExtension "x2" "e2" "Ext Two")) |}.
Proof. reflexivity. Qed.

End ServedTheme.

Section UpsertProperties.

Import ExtensionUpsert.

(** X12.  For a present extension the handler never touches the themes or
    the scripts, and the [extensions] container holds the upserted document
    exactly when the two [createIfNotExists] calls and the upsert itself
    were all answered; a rejected call leaves the container as it was. *)
Theorem upsert_footprint (env : Env) (e : Extension) (s : Sys) :
  themes (db (snd (httpTrigger env (Some e) s))) = themes (db s)
  /\ scripts (db (snd (httpTrigger env (Some e) s))) = scripts (db s)
  /\ extensions (db (snd (httpTrigger env (Some e) s))) =
       match fault env (DatabasesCreateIfNotExists "onlyThemesDb"),
             fault env (ContainersCreateIfNotExists "extensions"),
             fault env (ItemsUpsert (ext_id e)) with
       | None, None, None => replace_or_add e (extensions (db s))
       | _, _, _ => extensions (db s)
       end
  /\ trace (snd (httpTrigger env (Some e) s)) =
       trace s ++
       match fault env (DatabasesCreateIfNotExists "onlyThemesDb"),
             fault env (ContainersCreateIfNotExists "extensions") with
       | Some _, _ => [DatabasesCreateIfNotExists "onlyThemesDb"]
       | None, Some _ => [DatabasesCreateIfNotExists "onlyThemesDb";
                          ContainersCreateIfNotExists "extensions"]
       | None, None => [DatabasesCreateIfNotExists "onlyThemesDb";
                        ContainersCreateIfNotExists "extensions";
                        ItemsUpsert (ext_id e)]
       end.
Proof.
  unfold httpTrigger, member, guarded, try_catch, tryBlock, catchBlock,
    createIfNotExists, upsert, log, bind, remote, set_res, ret.
  cbn [fst snd db ctx trace].
  destruct (fault env (DatabasesCreateIfNotExists "onlyThemesDb"));
    cbn [fst snd db ctx trace]; [now repeat split|].
  destruct (fault env (ContainersCreateIfNotExists "extensions"));
    cbn [fst snd db ctx trace];
    [repeat split; now rewrite <- !app_assoc|].
  destruct (fault env (ItemsUpsert (ext_id e)));
    cbn [fst snd db ctx trace themes scripts extensions];
    repeat split; now rewrite <- !app_assoc.
Qed.

End UpsertProperties.
